(** * Attention modules of the AnimateDiff example (mindone)

    A shallow embedding of [examples/animatediff/ad/modules/attention.py]:
    tensors are a shape together with their row-major data, the MindSpore
    operators the file calls ([reshape], [transpose], [matmul], [softmax],
    [Dense], ...) are functions on such tensors, Python exceptions are an
    error result, and a Python object is its attribute dictionary, so that
    [self.name] is a lookup that can fail.  *)

From Stdlib Require Import String.
From Stdlib Require Import List Arith PeanoNat Lia Bool ZArith.
Import ListNotations.

Set Implicit Arguments.
Set Warnings "-register-all".

(* ================================================================== *)
(** * Python exceptions and the error monad *)

Inductive PyError : Type :=
| AttributeError (cls attr : string)   (* 'cls' object has no attribute 'attr' *)
| ZeroDivisionError                    (* integer division or modulo by zero *)
| ValueError (what : string)           (* shape mismatch, bad unpacking, ... *)
| TypeError (what : string)
| IndexError (what : string).

Inductive result (A : Type) : Type :=
| Ok (a : A)
| Err (e : PyError).
Arguments Ok {A} a.
Arguments Err {A} e.

Definition rbind {A B} (m : result A) (f : A -> result B) : result B :=
  match m with
  | Ok a => f a
  | Err e => Err e
  end.

Declare Scope py_scope.
Delimit Scope py_scope with py.
Notation "x <- e ;; k" := (rbind e (fun x => k))
  (at level 61, e at next level, right associativity) : py_scope.
Notation "' pat <- e ;; k" := (rbind e (fun x => match x with pat => k end))
  (at level 61, pat pattern, e at next level, right associativity) : py_scope.
Open Scope py_scope.

Definition is_ok {A} (r : result A) : bool :=
  match r with Ok _ => true | Err _ => false end.

(** Python's [a // b] on non-negative integers. *)
Definition floordiv (a b : nat) : result nat :=
  if b =? 0 then Err ZeroDivisionError else Ok (a / b).

(* ================================================================== *)
(** * Element types and scalars *)

Inductive DType : Type := float16 | float32 | bool_ | uint8.

Definition DType_eqb (a b : DType) : bool :=
  match a, b with
  | float16, float16 | float32, float32 | bool_, bool_ | uint8, uint8 => true
  | _, _ => false
  end.

(** The floating-point values and the operations on them are kept abstract:
    the development is parametric in them. *)
Class Scalar : Type := {
  scalar : Type;
  f0 : scalar;
  fadd : scalar -> scalar -> scalar;
  fmul : scalar -> scalar -> scalar;
  fdiv : scalar -> scalar -> scalar;
  fneg : scalar -> scalar;
  fexp : scalar -> scalar;
  fgelu : scalar -> scalar;
  fnormalize : nat -> list scalar -> scalar -> scalar;
                                        (* [(x - mean) / sqrt(var + 1e-n)] within a group *)
  fpow_neg_half : nat -> scalar;        (* [n ** -0.5] *)
  finfo_max : DType -> scalar;          (* [np.finfo(t).max] *)
  ftruthy : scalar -> bool              (* a mask element that selects *)
}.

(* ================================================================== *)
(** * Tensors: shape and row-major data *)

Section Tensors.
Context {S : Scalar}.

Record Tensor : Type := mkTensor {
  dtype : DType;
  shape : list nat;
  data : list scalar
}.

Definition numel (s : list nat) : nat := fold_right Nat.mul 1 s.

Definition wf (t : Tensor) : Prop := length (data t) = numel (shape t).

(** Multi-index of a flat row-major offset, and back. *)
Fixpoint unravel (s : list nat) (i : nat) : list nat :=
  match s with
  | [] => []
  | _ :: s' => i / numel s' :: unravel s' (i mod numel s')
  end.

Fixpoint ravel (s idx : list nat) : nat :=
  match s, idx with
  | _ :: s', i :: idx' => i * numel s' + ravel s' idx'
  | _, _ => 0
  end.

Definition tget (t : Tensor) (idx : list nat) : scalar :=
  nth (ravel (shape t) idx) (data t) f0.

Definition tabulate (dt : DType) (s : list nat) (f : list nat -> scalar) : Tensor :=
  mkTensor dt s (map (fun i => f (unravel s i)) (seq 0 (numel s))).

Definition fsum (l : list scalar) : scalar := fold_left fadd l f0.

(** [ops.reshape(x, s)]: the data is kept, the element count must agree. *)
Definition reshape (x : Tensor) (s : list nat) : result Tensor :=
  if numel s =? numel (shape x)
  then Ok (mkTensor (dtype x) s (data x))
  else Err (ValueError "reshape").

(** [x.view(d1, ..., dk, -1)]: the last dimension is inferred. *)
Definition view_infer_last (x : Tensor) (pre : list nat) : result Tensor :=
  if numel pre =? 0 then Err (ValueError "view")
  else if numel (shape x) mod numel pre =? 0
       then Ok (mkTensor (dtype x) (pre ++ [numel (shape x) / numel pre]) (data x))
       else Err (ValueError "view").

(** [ops.transpose(x, perm)]: axis [j] of the result is axis [perm[j]] of [x]. *)
Definition is_perm (perm : list nat) (rank : nat) : bool :=
  (length perm =? rank) &&
  forallb (fun a => existsb (Nat.eqb a) perm) (seq 0 rank).

Fixpoint position (a : nat) (perm : list nat) : nat :=
  match perm with
  | [] => 0
  | p :: perm' => if p =? a then 0 else 1 + position a perm'
  end.

Definition permute_shape (s perm : list nat) : list nat :=
  map (fun p => nth p s 0) perm.

Definition source_index (perm o : list nat) : list nat :=
  map (fun a => nth (position a perm) o 0) (seq 0 (length perm)).

Definition transpose (x : Tensor) (perm : list nat) : result Tensor :=
  if is_perm perm (length (shape x))
  then Ok (tabulate (dtype x) (permute_shape (shape x) perm)
             (fun o => tget x (source_index perm o)))
  else Err (ValueError "transpose").

(** Unpacking [b, n, d = x.shape] and [b, f, n, d = x.shape]. *)
Definition unpack3 (s : list nat) : result (nat * nat * nat) :=
  match s with
  | [b; n; d] => Ok (b, n, d)
  | _ => Err (ValueError "unpack")
  end.

Definition unpack4 (s : list nat) : result (nat * nat * nat * nat) :=
  match s with
  | [b; f; n; d] => Ok (b, f, n, d)
  | _ => Err (ValueError "unpack")
  end.

(* ------------------------------------------------------------------ *)
(** ** [CrossAttention._rearange_in] and [CrossAttention._rearange_out] *)

(** (b, n, h*d) -> (b*h, n, d) *)
Definition _rearange_in (x : Tensor) (h : nat) : result Tensor :=
  '(b, n, d) <- unpack3 (shape x) ;;
  d <- floordiv d h ;;
  x <- reshape x [b; n; h; d] ;;
  x <- transpose x [0; 2; 1; 3] ;;
  reshape x [b * h; n; d].

(** (b*h, n, d) -> (b, n, h*d) *)
Definition _rearange_out (x : Tensor) (h : nat) : result Tensor :=
  '(b, n, d) <- unpack3 (shape x) ;;
  b <- floordiv b h ;;
  x <- reshape x [b; h; n; d] ;;
  x <- transpose x [0; 2; 1; 3] ;;
  reshape x [b; n; h * d].

(* ------------------------------------------------------------------ *)
(** ** The other tensor operators of the file *)

Definition set_last (idx : list nat) (j : nat) : list nat := removelast idx ++ [j].

Fixpoint shape_eqb (s t : list nat) : bool :=
  match s, t with
  | [], [] => true
  | a :: s', b :: t' => (a =? b) && shape_eqb s' t'
  | _, _ => false
  end.

(** Result type of a binary operator (only the order float32 > float16 >
    uint8 > bool matters here). *)
Definition promote (a b : DType) : DType :=
  match a, b with
  | float32, _ | _, float32 => float32
  | float16, _ | _, float16 => float16
  | uint8, _ | _, uint8 => uint8
  | bool_, bool_ => bool_
  end.

(** [x.to(dt)] / [x.astype(dt)]. *)
Definition to (x : Tensor) (dt : DType) : Tensor :=
  mkTensor dt (shape x) (data x).

(** [ops.zeros(s, dt)]. *)
Definition zeros (s : list nat) (dt : DType) : Tensor :=
  tabulate dt s (fun _ => f0).

(** [x * c] for a Python float [c]. *)
Definition scale_by (x : Tensor) (c : scalar) : Tensor :=
  mkTensor (dtype x) (shape x) (map (fun a => fmul a c) (data x)).

(** [x + y]; every sum in the file adds two tensors of one shape, so
    broadcasting is not modelled and a shape mismatch is an error. *)
Definition tadd (x y : Tensor) : result Tensor :=
  if shape_eqb (shape x) (shape y)
  then Ok (mkTensor (promote (dtype x) (dtype y)) (shape x)
             (map (fun p => fadd (fst p) (snd p)) (combine (data x) (data y))))
  else Err (ValueError "add").

(** [ops.matmul] on two rank-3 tensors with one batch size:
    (b, n, k) x (b, k, m) -> (b, n, m). *)
Definition matmul (x y : Tensor) : result Tensor :=
  match shape x, shape y with
  | [b; n; k], [b'; k'; m] =>
      if (b =? b') && (k =? k')
      then Ok (tabulate (promote (dtype x) (dtype y)) [b; n; m]
                 (fun o => fsum (map (fun c => fmul (tget x [nth 0 o 0; nth 1 o 0; c])
                                                    (tget y [nth 0 o 0; c; nth 2 o 0]))
                                     (seq 0 k))))
      else Err (ValueError "matmul")
  | _, _ => Err (ValueError "matmul")
  end.

(** [ops.Softmax(axis=-1)]. *)
Definition softmax (x : Tensor) : Tensor :=
  tabulate (dtype x) (shape x)
    (fun o => fdiv (fexp (tget x o))
                   (fsum (map (fun j => fexp (tget x (set_last o j)))
                              (seq 0 (last (shape x) 0))))).

(** [x.shape[i]]. *)
Definition shape_at (x : Tensor) (i : nat) : result nat :=
  match nth_error (shape x) i with
  | Some d => Ok d
  | None => Err (IndexError "tuple index out of range")
  end.

(** [x.shape[-1]]. *)
Definition shape_last (x : Tensor) : result nat :=
  match shape x with
  | [] => Err (IndexError "tuple index out of range")
  | s => Ok (last s 0)
  end.

(** [x[:, idx]] on a rank-4 tensor, [idx] a list of positions on axis 1. *)
Definition index_axis1 (x : Tensor) (idx : list nat) : result Tensor :=
  '(b, f, n, d) <- unpack4 (shape x) ;;
  if forallb (fun i => i <? f) idx
  then Ok (tabulate (dtype x) [b; length idx; n; d]
             (fun o => tget x [nth 0 o 0; nth (nth 1 o 0) idx 0; nth 2 o 0; nth 3 o 0]))
  else Err (IndexError "index out of range").

(** [mask.repeat(r, axis=0)] on a rank-2 tensor: every row [r] times. *)
Definition repeat_axis0 (x : Tensor) (r : nat) : result Tensor :=
  match shape x with
  | [a; c] => Ok (tabulate (dtype x) [a * r; c]
                    (fun o => tget x [nth 0 o 0 / r; nth 1 o 0]))
  | _ => Err (ValueError "repeat")
  end.

(** [ops.expand_dims(x, axis=1)]. *)
Definition expand_dims1 (x : Tensor) : result Tensor :=
  match shape x with
  | a :: s => Ok (mkTensor (dtype x) (a :: 1 :: s) (data x))
  | [] => Err (ValueError "expand_dims")
  end.

(** [x.masked_fill(mask, value)]: a NEW tensor, [x] itself is unchanged.
    The mask is a bool tensor of the rank of [x] whose dimensions are those
    of [x] or 1. *)
Fixpoint broadcastable (sm sx : list nat) : bool :=
  match sm, sx with
  | [], [] => true
  | m :: sm', x :: sx' => ((m =? x) || (m =? 1)) && broadcastable sm' sx'
  | _, _ => false
  end.

Fixpoint broadcast_index (sm o : list nat) : list nat :=
  match sm, o with
  | m :: sm', i :: o' => (if m =? 1 then 0 else i) :: broadcast_index sm' o'
  | _, _ => []
  end.

Definition masked_fill (x mask : Tensor) (value : scalar) : result Tensor :=
  if negb (DType_eqb (dtype mask) bool_) then Err (TypeError "masked_fill")
  else if broadcastable (shape mask) (shape x)
  then Ok (tabulate (dtype x) (shape x)
             (fun o => if ftruthy (tget mask (broadcast_index (shape mask) o))
                       then value else tget x o))
  else Err (ValueError "masked_fill").

(* ------------------------------------------------------------------ *)
(** ** [mindspore.nn] layers *)

Record Linear : Type := mkLinear {
  l_in : nat;
  l_out : nat;
  l_weight : list scalar;            (* (l_out, l_in), row-major *)
  l_bias : option (list scalar);     (* (l_out), or no bias *)
  l_dtype : DType                    (* [.to_float(dtype)] *)
}.

Definition to_float (l : Linear) (dt : DType) : Linear :=
  mkLinear (l_in l) (l_out l) (l_weight l) (l_bias l) dt.

(** [nn.Dense(cin, cout, has_bias)] and [nn.Conv2d(cin, cout, 1, ...)]:
    both check that the channel counts are positive.  The initial values
    [w] and [b] are whatever the initializer drew. *)
Definition Linear_init (cin cout : nat) (has_bias : bool) (w b : list scalar)
  : result Linear :=
  if (cin =? 0) || (cout =? 0) then Err (ValueError "channels must be positive")
  else Ok (mkLinear cin cout w (if has_bias then Some b else None) float32).

Definition with_bias (l : Linear) (o : nat) (acc : scalar) : scalar :=
  match l_bias l with
  | Some b => fadd acc (nth o b f0)
  | None => acc
  end.

(** [Dense]: (..., cin) -> (..., cout), [y = x W^T + b]. *)
Definition Dense_apply (l : Linear) (x : Tensor) : result Tensor :=
  c <- shape_last x ;;
  if c =? l_in l
  then Ok (tabulate (l_dtype l) (set_last (shape x) (l_out l))
             (fun o => with_bias l (last o 0)
                         (fsum (map (fun ci => fmul (tget x (set_last o ci))
                                                 (nth (last o 0 * l_in l + ci) (l_weight l) f0))
                                    (seq 0 (l_in l))))))
  else Err (ValueError "Dense").

(** [Conv2d] with a 1x1 kernel, stride 1, no padding:
    (b, cin, h, w) -> (b, cout, h, w). *)
Definition Conv1x1_apply (l : Linear) (x : Tensor) : result Tensor :=
  '(b, c, h, w) <- unpack4 (shape x) ;;
  if c =? l_in l
  then Ok (tabulate (l_dtype l) [b; l_out l; h; w]
             (fun o => with_bias l (nth 1 o 0)
                         (fsum (map (fun ci => fmul (tget x [nth 0 o 0; ci; nth 2 o 0; nth 3 o 0])
                                                 (nth (nth 1 o 0 * l_in l + ci) (l_weight l) f0))
                                    (seq 0 (l_in l))))))
  else Err (ValueError "Conv2d").

Record Norm : Type := mkNorm {
  n_channels : nat;
  n_eps : nat;                 (* eps = 1e-[n_eps] *)
  n_gamma : list scalar;
  n_beta : list scalar;
  n_dtype : DType
}.

Definition affine (l : Norm) (c : nat) (a : scalar) : scalar :=
  fadd (fmul a (nth c (n_gamma l) f0)) (nth c (n_beta l) f0).

(** [nn.LayerNorm([dim])]: normalizes every vector along the last axis. *)
Definition LayerNorm_apply (l : Norm) (x : Tensor) : result Tensor :=
  c <- shape_last x ;;
  if c =? n_channels l
  then Ok (tabulate (n_dtype l) (shape x)
             (fun o => affine l (last o 0)
                         (fnormalize (n_eps l)
                            (map (fun ci => tget x (set_last o ci)) (seq 0 c))
                            (tget x o))))
  else Err (ValueError "LayerNorm").

(** [nn.GroupNorm(groups, channels)] on (b, c, h, w): normalizes over the
    channels of a group and all positions. *)
Definition GroupNorm_apply (groups : nat) (l : Norm) (x : Tensor) : result Tensor :=
  '(b, c, h, w) <- unpack4 (shape x) ;;
  if c =? n_channels l
  then let per := c / groups in
       Ok (tabulate (n_dtype l) (shape x)
             (fun o => affine l (nth 1 o 0)
                         (fnormalize (n_eps l)
                            (map (fun i => tget x [nth 0 o 0;
                                                   (nth 1 o 0 / per) * per + i / (h * w);
                                                   (i mod (h * w)) / w;
                                                   i mod w])
                                 (seq 0 (per * h * w)))
                            (tget x o))))
  else Err (ValueError "GroupNorm").

Inductive Layer : Type :=
| LDense (l : Linear)
| LConv2d (l : Linear)
| LDropout (keep_prob : scalar)
| LGELU (dt : DType)
| LGEGLU (proj : Linear)
| LLayerNorm (l : Norm)
| LGroupNorm (groups : nat) (l : Norm)
| LSequential (ls : list Layer).

(** [GEGLU.construct]: [x, gate = split(proj(x)); x * gelu(gate)]. *)
Definition GEGLU_construct (proj : Linear) (x : Tensor) : result Tensor :=
  y <- Dense_apply proj x ;;
  c <- shape_last y ;;
  if c mod 2 =? 0
  then Ok (tabulate (dtype y) (set_last (shape y) (c / 2))
             (fun o => fmul (tget y o) (fgelu (tget y (set_last o (last o 0 + c / 2))))))
  else Err (ValueError "Split").

(** Cells are applied in inference mode, where [nn.Dropout] is the
    identity. *)
Fixpoint apply_layer (l : Layer) (x : Tensor) {struct l} : result Tensor :=
  match l with
  | LDense d => Dense_apply d x
  | LConv2d c => Conv1x1_apply c x
  | LDropout _ => Ok x
  | LGELU dt => Ok (mkTensor dt (shape x) (map fgelu (data x)))
  | LGEGLU proj => GEGLU_construct proj x
  | LLayerNorm n => LayerNorm_apply n x
  | LGroupNorm g n => GroupNorm_apply g n x
  | LSequential ls =>
      (fix go (ls : list Layer) (x : Tensor) {struct ls} : result Tensor :=
         match ls with
         | [] => Ok x
         | l' :: ls' => y <- apply_layer l' x ;; go ls' y
         end) ls x
  end.

(* ------------------------------------------------------------------ *)
(** ** [default] and [zero_module] *)

Definition exists_ {A} (val : option A) : bool :=
  match val with Some _ => true | None => false end.

(** [default(val, d)]: [d] is either a Tensor, int or float ([inl]), which
    is returned, or something else ([inr]), which is called. *)
Definition default {A} (val : option A) (d : A + (unit -> A)) : A :=
  match val with
  | Some v => v
  | None => match d with
            | inl d => d
            | inr f => f tt
            end
  end.

(** [zero_module(module)]: weight and bias become zeros of their shapes;
    [module.bias] is [None] for a layer without bias, and [None.shape]
    raises. *)
Definition zero_linear (l : Linear) : result Linear :=
  match l_bias l with
  | Some b => Ok (mkLinear (l_in l) (l_out l)
                    (map (fun _ => f0) (l_weight l))
                    (Some (map (fun _ => f0) b)) (l_dtype l))
  | None => Err (AttributeError "NoneType" "shape")
  end.

Definition zero_module (module : Layer) : result Layer :=
  match module with
  | LDense l => l' <- zero_linear l ;; Ok (LDense l')
  | LConv2d l => l' <- zero_linear l ;; Ok (LConv2d l')
  | _ => Err (AttributeError "Cell" "weight")
  end.

End Tensors.

(* ================================================================== *)
(** * Python objects, the backend, and calls that are observed *)

Section Objects.
Context {S : Scalar}.

Inductive Op : Type :=
| OpTranspose      (* ops.Transpose() *)
| OpReshape        (* ops.Reshape() *)
| OpSoftmax.       (* ops.Softmax(axis=-1) *)

(** The values an attribute of the cells of this file holds. *)
Inductive PyVal : Type :=
| VNone
| VBool (b : bool)
| VInt (n : nat)
| VFloat (f : scalar)
| VDType (d : DType)
| VOp (o : Op)
| VLayer (l : Layer)
| VFlash (head_dim head_num : nat) (high_precision : bool)
| VList (vs : list PyVal)
| VObj (cls : string) (attrs : list (string * PyVal)).

(** An instance: its class name and its attributes, latest assignment
    first.  [nn.Cell] itself provides no attribute named [reshape],
    [transpose] or [heads], so a name that [__init__] never assigned is
    missing. *)
Record Object : Type := mkObject {
  cls : string;
  attrs : list (string * PyVal)
}.

Definition new_object (c : string) : Object := mkObject c [].

Definition setattr (self : Object) (name : string) (v : PyVal) : Object :=
  mkObject (cls self) ((name, v) :: attrs self).

Fixpoint lookup (name : string) (l : list (string * PyVal)) : option PyVal :=
  match l with
  | [] => None
  | (n, v) :: l' => if String.eqb n name then Some v else lookup name l'
  end.

Definition getattr (self : Object) (name : string) : result PyVal :=
  match lookup name (attrs self) with
  | Some v => Ok v
  | None => Err (AttributeError (cls self) name)
  end.

Definition hasattr (self : Object) (name : string) : bool :=
  match lookup name (attrs self) with Some _ => true | None => false end.

Definition as_int (v : PyVal) : result nat :=
  match v with VInt n => Ok n | _ => Err (TypeError "int expected") end.
Definition as_bool (v : PyVal) : result bool :=
  match v with VBool b => Ok b | _ => Err (TypeError "bool expected") end.
Definition as_float (v : PyVal) : result scalar :=
  match v with VFloat f => Ok f | _ => Err (TypeError "float expected") end.
Definition as_dtype (v : PyVal) : result DType :=
  match v with VDType d => Ok d | _ => Err (TypeError "dtype expected") end.
Definition as_object (v : PyVal) : result Object :=
  match v with VObj c a => Ok (mkObject c a) | _ => Err (TypeError "object is not callable") end.
Definition as_list (v : PyVal) : result (list PyVal) :=
  match v with VList l => Ok l | _ => Err (TypeError "object is not iterable") end.

Definition of_object (o : Object) : PyVal := VObj (cls o) (attrs o).

(** Calling the value of an attribute. *)
Definition call_transpose (f : PyVal) (x : Tensor) (perm : list nat) : result Tensor :=
  match f with
  | VOp OpTranspose => transpose x perm
  | _ => Err (TypeError "object is not callable")
  end.

Definition call_reshape (f : PyVal) (x : Tensor) (s : list nat) : result Tensor :=
  match f with
  | VOp OpReshape => reshape x s
  | _ => Err (TypeError "object is not callable")
  end.

(** [f(x, (d, -1))] *)
Definition call_reshape_infer (f : PyVal) (x : Tensor) (pre : list nat) : result Tensor :=
  match f with
  | VOp OpReshape => view_infer_last x pre
  | _ => Err (TypeError "object is not callable")
  end.

Definition call_layer (f : PyVal) (x : Tensor) : result Tensor :=
  match f with
  | VLayer l => apply_layer l x
  | _ => Err (TypeError "object is not callable")
  end.

(** What [mindone.utils.version_control] and the MindSpore context report,
    and the fused kernel behind [FlashAttention]: these are not part of
    the file and are parameters of the model. *)
Record Backend : Type := mkBackend {
  FLASH_IS_AVAILABLE : bool;                 (* check_valid_flash_attention() *)
  device_target : string;                    (* ms.context.get_context("device_target") *)
  is_old_ms_version : bool;
  choose_flash_attention_dtype : DType;
  flash_kernel : nat -> nat -> Tensor -> Tensor -> Tensor -> option Tensor -> result Tensor
}.

(** Calls of the attention kernels and of the softmax are recorded. *)
Inductive Event : Type :=
| EvFlashAttention (q k v : Tensor) (mask : option Tensor)
| EvAttention (q k v : Tensor) (mask : option Tensor)
| EvSoftmax (sim : Tensor).

Definition is_flash (e : Event) : bool :=
  match e with EvFlashAttention _ _ _ _ => true | _ => false end.
Definition is_attention (e : Event) : bool :=
  match e with EvAttention _ _ _ _ => true | _ => false end.
Definition is_softmax (e : Event) : bool :=
  match e with EvSoftmax _ => true | _ => false end.

(** A computation that records events and may raise. *)
Definition M (A : Type) : Type := list Event -> list Event * result A.

Definition mret {A} (a : A) : M A := fun l => (l, Ok a).

Definition mbind {A B} (m : M A) (f : A -> M B) : M B :=
  fun l => match m l with
           | (l', Ok a) => f a l'
           | (l', Err e) => (l', Err e)
           end.

Definition lift {A} (r : result A) : M A := fun l => (l, r).

Definition emit (e : Event) : M unit := fun l => (l ++ [e], Ok tt).

Definition run {A} (m : M A) : list Event * result A := m [].

End Objects.

Notation "x <~ e ;; k" := (mbind e (fun x => k))
  (at level 61, e at next level, right associativity) : py_scope.
Notation "' pat <~ e ;; k" := (mbind e (fun x => match x with pat => k end))
  (at level 61, pat pattern, e at next level, right associativity) : py_scope.

(* ================================================================== *)
(** * The cells of [attention.py] *)

Section Modules.
Context {S : Scalar}.
Variable env : Backend.

Definition attr_int (self : Object) (name : string) : result nat :=
  v <- getattr self name ;; as_int v.
Definition attr_bool (self : Object) (name : string) : result bool :=
  v <- getattr self name ;; as_bool v.
Definition attr_float (self : Object) (name : string) : result scalar :=
  v <- getattr self name ;; as_float v.
Definition attr_dtype (self : Object) (name : string) : result DType :=
  v <- getattr self name ;; as_dtype v.

(** [self.name(x)] for a layer attribute. *)
Definition call_attr (self : Object) (name : string) (x : Tensor) : result Tensor :=
  f <- getattr self name ;; call_layer f x.

(* ------------------------------------------------------------------ *)
(** ** [Attention] *)

(** [n ** -0.5]; Python raises for [0 ** -0.5]. *)
Definition pow_neg_half (n : nat) : result scalar :=
  if n =? 0 then Err ZeroDivisionError else Ok (fpow_neg_half n).

Definition Attention_init (dim_head : nat) : result Object :=
  let self := new_object "Attention" in
  let self := setattr self "softmax" (VOp OpSoftmax) in
  let self := setattr self "transpose" (VOp OpTranspose) in
  scale <- pow_neg_half dim_head ;;
  Ok (setattr self "scale" (VFloat scale)).

Definition call_softmax (f : PyVal) (x : Tensor) : M Tensor :=
  match f with
  | VOp OpSoftmax => _ <~ emit (EvSoftmax x) ;; mret (softmax x)
  | _ => lift (Err (TypeError "object is not callable"))
  end.

(** The [if exists(mask):] block of [Attention.construct].  It returns
    nothing: [sim.masked_fill(...)] is an expression statement, its value
    is dropped and [sim] is not reassigned. *)
Definition Attention_mask_block (self : Object) (sim mask : Tensor) : result unit :=
  rs <- getattr self "reshape" ;;
  m0 <- shape_at mask 0 ;;
  mask <- call_reshape_infer rs mask [m0] ;;
  let finfo_type := if DType_eqb (dtype sim) float16 then float16 else float32 in
  let max_neg_value := fneg (finfo_max finfo_type) in
  heads <- attr_int self "heads" ;;
  mask <- repeat_axis0 mask heads ;;
  mask <- expand_dims1 mask ;;
  _ <- masked_fill sim mask max_neg_value ;;
  Ok tt.

Definition Attention_construct (self : Object) (q k v : Tensor) (mask : option Tensor)
  : M Tensor :=
  _ <~ emit (EvAttention q k v mask) ;;
  tr <~ lift (getattr self "transpose") ;;
  kt <~ lift (call_transpose tr k [0; 2; 1]) ;;
  qk <~ lift (matmul q kt) ;;
  scale <~ lift (attr_float self "scale") ;;
  let sim := scale_by qk scale in
  _ <~ lift (match mask with
             | Some mask => Attention_mask_block self sim mask
             | None => Ok tt
             end) ;;
  sm <~ lift (getattr self "softmax") ;;
  attn <~ call_softmax sm sim ;;
  lift (matmul attn v).

Definition call_attention (f : PyVal) (q k v : Tensor) (mask : option Tensor) : M Tensor :=
  self <~ lift (as_object f) ;;
  if String.eqb (cls self) "Attention"
  then Attention_construct self q k v mask
  else lift (Err (TypeError "object is not callable")).

Definition call_flash (f : PyVal) (q k v : Tensor) (mask : option Tensor) : M Tensor :=
  match f with
  | VFlash head_dim head_num _ =>
      _ <~ emit (EvFlashAttention q k v mask) ;;
      lift (flash_kernel env head_dim head_num q k v mask)
  | _ => lift (Err (TypeError "object is not callable"))
  end.

(* ------------------------------------------------------------------ *)
(** ** [CrossAttention] *)

(** [self.enable_flash_attention] as [__init__] computes it. *)
Definition flash_enabled (enable_flash_attention : bool) : bool :=
  enable_flash_attention && FLASH_IS_AVAILABLE env
  && String.eqb (device_target env) "Ascend".

(** The initial values of the learned parameters. *)
Record AttnWeights : Type := mkAttnWeights {
  w_q : list scalar;
  w_k : list scalar;
  w_v : list scalar;
  w_out : list scalar;
  b_out : list scalar
}.

(** [CrossAttention.__init__]; [c] is the name of the class being
    instantiated ([CrossFrameAttention] reaches it through [super()]). *)
Definition CrossAttention_init (c : string) (query_dim : nat) (context_dim : option nat)
    (heads dim_head : nat) (dropout : scalar) (dt : DType)
    (enable_flash_attention : bool) (w : AttnWeights) : result Object :=
  let self := new_object c in
  let inner_dim := dim_head * heads in
  let context_dim := default context_dim (inl query_dim) in
  let self := setattr self "heads" (VInt heads) in
  let self := setattr self "transpose" (VOp OpTranspose) in
  to_q <- Linear_init query_dim inner_dim false (w_q w) [] ;;
  let self := setattr self "to_q" (VLayer (LDense (to_float to_q dt))) in
  to_k <- Linear_init context_dim inner_dim false (w_k w) [] ;;
  let self := setattr self "to_k" (VLayer (LDense (to_float to_k dt))) in
  to_v <- Linear_init context_dim inner_dim false (w_v w) [] ;;
  let self := setattr self "to_v" (VLayer (LDense (to_float to_v dt))) in
  to_out <- Linear_init inner_dim query_dim true (w_out w) (b_out w) ;;
  let self := setattr self "to_out"
                (VLayer (LSequential [LDense (to_float to_out dt); LDropout dropout])) in
  let self := setattr self "head_dim" (VInt dim_head) in
  attention <- Attention_init dim_head ;;
  let self := setattr self "attention" (of_object attention) in
  let efa := flash_enabled enable_flash_attention in
  let self := setattr self "enable_flash_attention" (VBool efa) in
  if efa
  then let self := setattr self "flash_attention" (VFlash dim_head heads true) in
       Ok (setattr self "fa_mask_dtype" (VDType (choose_flash_attention_dtype env)))
  else Ok (setattr self "flash_attention" VNone).

Definition CrossAttention_construct (self : Object) (x : Tensor)
    (context mask : option Tensor) : M Tensor :=
  let x_dtype := dtype x in
  h <~ lift (attr_int self "heads") ;;
  q <~ lift (call_attr self "to_q" x) ;;
  let context := default context (inl x) in
  k <~ lift (call_attr self "to_k" context) ;;
  v <~ lift (call_attr self "to_v" context) ;;
  '(q_b, q_n, _) <~ lift (unpack3 (shape q)) ;;
  '(k_b, k_n, _) <~ lift (unpack3 (shape k)) ;;
  '(v_b, v_n, _) <~ lift (unpack3 (shape v)) ;;
  head_dim <~ lift (c <- shape_last q ;; hs <- attr_int self "heads" ;; floordiv c hs) ;;
  efa <~ lift (attr_bool self "enable_flash_attention") ;;
  out <~ (if efa && (q_n mod 16 =? 0) && (k_n mod 16 =? 0) && (head_dim <=? 128)
          then
            q <~ lift (q <- view_infer_last q [q_b; q_n; h] ;; transpose q [0; 2; 1; 3]) ;;
            k <~ lift (k <- view_infer_last k [k_b; k_n; h] ;; transpose k [0; 2; 1; 3]) ;;
            v <~ lift (v <- view_infer_last v [v_b; v_n; h] ;; transpose v [0; 2; 1; 3]) ;;
            mask <~ lift (match mask with
                          | None => fdt <- attr_dtype self "fa_mask_dtype" ;;
                                    Ok (zeros [q_b; q_n; q_n] fdt)
                          | Some m => Ok m
                          end) ;;
            fa <~ lift (getattr self "flash_attention") ;;
            fdt <~ lift (attr_dtype self "fa_mask_dtype") ;;
            out <~ call_flash fa (to q float16) (to k float16) (to v float16)
                     (Some (to mask fdt)) ;;
            '(b, _, n, _) <~ lift (unpack4 (shape out)) ;;
            lift (out <- transpose out [0; 2; 1; 3] ;; view_infer_last out [b; n])
          else
            q <~ lift (_rearange_in q h) ;;
            k <~ lift (_rearange_in k h) ;;
            v <~ lift (_rearange_in v h) ;;
            att <~ lift (getattr self "attention") ;;
            out <~ call_attention att q k v mask ;;
            lift (_rearange_out out h)) ;;
  out <~ lift (call_attr self "to_out" out) ;;
  mret (to out x_dtype).

(* ------------------------------------------------------------------ *)
(** ** [CrossFrameAttention] *)

Definition CrossFrameAttention_init (unet_chunk_size : nat) (query_dim : nat)
    (context_dim : option nat) (heads dim_head : nat) (dropout : scalar) (dt : DType)
    (enable_flash_attention : bool) (w : AttnWeights) : result Object :=
  self <- CrossAttention_init "CrossFrameAttention" query_dim context_dim heads dim_head
            dropout dt enable_flash_attention w ;;
  Ok (setattr self "unet_chunk_size" (VInt unet_chunk_size)).

(** The local helpers of [CrossFrameAttention.construct]. *)
Definition CFA_rearange_in (self : Object) (x : Tensor) : result Tensor :=
  h <- attr_int self "heads" ;;
  '(b, n, d) <- unpack3 (shape x) ;;
  d <- floordiv d h ;;
  rs <- getattr self "reshape" ;;
  x <- call_reshape rs x [b; n; h; d] ;;
  tr <- getattr self "transpose" ;;
  x <- call_transpose tr x [0; 2; 1; 3] ;;
  rs <- getattr self "reshape" ;;
  call_reshape rs x [b * h; n; d].

Definition CFA_rearange_frame (self : Object) (x : Tensor) (f : nat) : result Tensor :=
  '(b, n, d) <- unpack3 (shape x) ;;
  b <- floordiv b f ;;
  rs <- getattr self "reshape" ;;
  call_reshape rs x [b; f; n; d].

Definition CFA_rearange_frame_back (self : Object) (x : Tensor) : result Tensor :=
  '(b, f, n, d) <- unpack4 (shape x) ;;
  rs <- getattr self "reshape" ;;
  call_reshape rs x [b * f; n; d].

Definition CFA_rearange_out (self : Object) (x : Tensor) : result Tensor :=
  h <- attr_int self "heads" ;;
  '(b, n, d) <- unpack3 (shape x) ;;
  b <- floordiv b h ;;
  rs <- getattr self "reshape" ;;
  x <- call_reshape rs x [b; h; n; d] ;;
  tr <- getattr self "transpose" ;;
  x <- call_transpose tr x [0; 2; 1; 3] ;;
  rs <- getattr self "reshape" ;;
  call_reshape rs x [b; n; h * d].

(** The [if not is_cross_attention:] block: keys and values of every
    frame are replaced by those of frame 0 of the chunk. *)
Definition CFA_share_frames (self : Object) (k v : Tensor) : result (Tensor * Tensor) :=
  k0 <- shape_at k 0 ;;
  cs <- attr_int self "unet_chunk_size" ;;
  video_length <- floordiv k0 cs ;;
  let former_frame_index := repeat 0 video_length in
  k <- CFA_rearange_frame self k video_length ;;
  k <- index_axis1 k former_frame_index ;;
  k <- CFA_rearange_frame_back self k ;;
  v <- CFA_rearange_frame self v video_length ;;
  v <- index_axis1 v former_frame_index ;;
  v <- CFA_rearange_frame_back self v ;;
  Ok (k, v).

Definition CrossFrameAttention_construct (self : Object) (x : Tensor)
    (context mask : option Tensor) : M Tensor :=
  q <~ lift (call_attr self "to_q" x) ;;
  let is_cross_attention := exists_ context in
  let context := default context (inl x) in
  k <~ lift (call_attr self "to_k" context) ;;
  v <~ lift (call_attr self "to_v" context) ;;
  '(k, v) <~ lift (if negb is_cross_attention
                   then CFA_share_frames self k v
                   else Ok (k, v)) ;;
  q <~ lift (CFA_rearange_in self q) ;;
  k <~ lift (CFA_rearange_in self k) ;;
  v <~ lift (CFA_rearange_in self v) ;;
  efa <~ lift (attr_bool self "enable_flash_attention") ;;
  fast <~ lift (if efa
                then qn <- shape_at q 1 ;;
                     if qn mod 16 =? 0
                     then kn <- shape_at k 1 ;; Ok (kn mod 16 =? 0)
                     else Ok false
                else Ok false) ;;
  out <~ (if (fast : bool)
          then fa <~ lift (getattr self "flash_attention") ;;
               call_flash fa q k v None
          else att <~ lift (getattr self "attention") ;;
               call_attention att q k v mask) ;;
  out <~ lift (CFA_rearange_out self out) ;;
  lift (call_attr self "to_out" out).

(** A call [cell(x, context, mask)] of an attention cell goes to the
    [construct] of its class. *)
Definition call_attn (f : PyVal) (x : Tensor) (context mask : option Tensor) : M Tensor :=
  self <~ lift (as_object f) ;;
  if String.eqb (cls self) "CrossAttention"
  then CrossAttention_construct self x context mask
  else if String.eqb (cls self) "CrossFrameAttention"
  then CrossFrameAttention_construct self x context mask
  else lift (Err (TypeError "object is not callable")).

End Modules.

(* ================================================================== *)
(** * [FeedForward], [BasicTransformerBlock], [SpatialTransformer] *)

Section Blocks.
Context {S : Scalar}.
Variable env : Backend.

Record LinearWeights : Type := mkLinearWeights {
  lw_weight : list scalar;
  lw_bias : list scalar
}.

Record NormWeights : Type := mkNormWeights {
  nw_gamma : list scalar;
  nw_beta : list scalar
}.

Record BlockWeights : Type := mkBlockWeights {
  bw_attn1 : AttnWeights;
  bw_attn2 : AttnWeights;
  bw_ff_in : LinearWeights;
  bw_ff_out : LinearWeights;
  bw_norm1 : NormWeights;
  bw_norm2 : NormWeights;
  bw_norm3 : NormWeights
}.

(** [GEGLU.__init__] *)
Definition GEGLU_init (dim_in dim_out : nat) (dt : DType) (w : LinearWeights)
  : result Layer :=
  proj <- Linear_init dim_in (dim_out * 2) true (lw_weight w) (lw_bias w) ;;
  Ok (LGEGLU (to_float proj dt)).

(** [FeedForward.__init__].  The plain variant ([glu = False]) evaluates
    [nn.Sequential], a name that [mindspore.nn] does not provide (its
    container is [nn.SequentialCell], the one used for [self.net]): the
    lookup raises before [nn.Dense] and [nn.GELU] are built. *)
Definition FeedForward_init (dim : nat) (dim_out : option nat) (mult : nat) (glu : bool)
    (dropout : scalar) (dt : DType) (w_in w_out : LinearWeights) : result Object :=
  let self := new_object "FeedForward" in
  let inner_dim := dim * mult in
  let dim_out := default dim_out (inl dim) in
  project_in <- (if negb glu
                 then Err (AttributeError "mindspore.nn" "Sequential")
                 else GEGLU_init dim inner_dim dt w_in) ;;
  out <- Linear_init inner_dim dim_out true (lw_weight w_out) (lw_bias w_out) ;;
  Ok (setattr self "net"
        (VLayer (LSequential [project_in; LDropout dropout; LDense (to_float out dt)]))).

Definition FeedForward_construct (self : Object) (x : Tensor) : result Tensor :=
  call_attr self "net" x.

Definition LayerNorm_init (dim : nat) (dt : DType) (w : NormWeights) : Layer :=
  LLayerNorm (mkNorm dim 5 (nw_gamma w) (nw_beta w) dt).

(** [Normalize(in_channels)]: [nn.GroupNorm] rejects a channel count that
    its 32 groups do not divide. *)
Definition Normalize (in_channels : nat) (w : NormWeights) : result Layer :=
  if in_channels mod 32 =? 0
  then Ok (LGroupNorm 32 (mkNorm in_channels 6 (nw_gamma w) (nw_beta w) float32))
  else Err (ValueError "num_channels must be divided by num_groups").

(** [BasicTransformerBlock.__init__] *)
Definition BasicTransformerBlock_init (dim n_heads d_head : nat) (dropout : scalar)
    (context_dim : option nat) (gated_ff checkpoint : bool) (dt : DType)
    (enable_flash_attention cross_frame_attention : bool) (unet_chunk_size : nat)
    (w : BlockWeights) : result Object :=
  let self := new_object "BasicTransformerBlock" in
  attn1 <- (if cross_frame_attention
            then CrossFrameAttention_init env unet_chunk_size dim None n_heads d_head
                   dropout dt enable_flash_attention (bw_attn1 w)
            else CrossAttention_init env "CrossAttention" dim None n_heads d_head
                   dropout dt enable_flash_attention (bw_attn1 w)) ;;
  let self := setattr self "attn1" (of_object attn1) in
  ff <- FeedForward_init dim None 4 gated_ff dropout dt (bw_ff_in w) (bw_ff_out w) ;;
  let self := setattr self "ff" (of_object ff) in
  attn2 <- (if cross_frame_attention
            then CrossFrameAttention_init env unet_chunk_size dim context_dim n_heads d_head
                   dropout dt enable_flash_attention (bw_attn2 w)
            else CrossAttention_init env "CrossAttention" dim context_dim n_heads d_head
                   dropout dt enable_flash_attention (bw_attn2 w)) ;;
  let self := setattr self "attn2" (of_object attn2) in
  let self := setattr self "norm1" (VLayer (LayerNorm_init dim dt (bw_norm1 w))) in
  let self := setattr self "norm2" (VLayer (LayerNorm_init dim dt (bw_norm2 w))) in
  let self := setattr self "norm3" (VLayer (LayerNorm_init dim dt (bw_norm3 w))) in
  Ok (setattr self "checkpoint" (VBool checkpoint)).

Definition call_ff (f : PyVal) (x : Tensor) : result Tensor :=
  self <- as_object f ;;
  if String.eqb (cls self) "FeedForward"
  then FeedForward_construct self x
  else Err (TypeError "object is not callable").

Definition BasicTransformerBlock_construct (self : Object) (x : Tensor)
    (context : option Tensor) : M Tensor :=
  attn1 <~ lift (getattr self "attn1") ;;
  n <~ lift (call_attr self "norm1" x) ;;
  a <~ call_attn env attn1 n None None ;;
  x <~ lift (tadd a x) ;;
  attn2 <~ lift (getattr self "attn2") ;;
  n <~ lift (call_attr self "norm2" x) ;;
  a <~ call_attn env attn2 n context None ;;
  x <~ lift (tadd a x) ;;
  ff <~ lift (getattr self "ff") ;;
  n <~ lift (call_attr self "norm3" x) ;;
  f <~ lift (call_ff ff n) ;;
  lift (tadd f x).

Definition call_block (f : PyVal) (x : Tensor) (context : option Tensor) : M Tensor :=
  self <~ lift (as_object f) ;;
  if String.eqb (cls self) "BasicTransformerBlock"
  then BasicTransformerBlock_construct self x context
  else lift (Err (TypeError "object is not callable")).

(** [for block in blocks: x = block(x, context=context)] *)
Fixpoint run_blocks (blocks : list PyVal) (x : Tensor) (context : option Tensor)
  : M Tensor :=
  match blocks with
  | [] => mret x
  | block :: rest => x <~ call_block block x context ;; run_blocks rest x context
  end.

Record SpatialWeights : Type := mkSpatialWeights {
  sw_norm : NormWeights;
  sw_proj_in : LinearWeights;
  sw_blocks : nat -> BlockWeights;
  sw_proj_out : LinearWeights
}.

(** [[BasicTransformerBlock(...) for d in range(depth)]] *)
Fixpoint init_blocks (mk : nat -> result Object) (ds : list nat) : result (list PyVal) :=
  match ds with
  | [] => Ok []
  | d :: ds' => b <- mk d ;; bs <- init_blocks mk ds' ;; Ok (of_object b :: bs)
  end.

(** [SpatialTransformer.__init__] *)
Definition SpatialTransformer_init (in_channels n_heads d_head depth : nat)
    (dropout : scalar) (context_dim : option nat) (use_checkpoint use_linear : bool)
    (dt : DType) (enable_flash_attention cross_frame_attention : bool)
    (unet_chunk_size : nat) (w : SpatialWeights) : result Object :=
  let self := new_object "SpatialTransformer" in
  let self := setattr self "in_channels" (VInt in_channels) in
  let self := setattr self "dtype" (VDType dt) in
  let inner_dim := n_heads * d_head in
  norm <- Normalize in_channels (sw_norm w) ;;
  let self := setattr self "norm" (VLayer norm) in
  proj_in <- (if negb use_linear
              then c <- Linear_init in_channels inner_dim true
                          (lw_weight (sw_proj_in w)) (lw_bias (sw_proj_in w)) ;;
                   Ok (LConv2d (to_float c dt))
              else d <- Linear_init in_channels inner_dim true
                          (lw_weight (sw_proj_in w)) (lw_bias (sw_proj_in w)) ;;
                   Ok (LDense (to_float d dt))) ;;
  let self := setattr self "proj_in" (VLayer proj_in) in
  blocks <- init_blocks
              (fun d => BasicTransformerBlock_init inner_dim n_heads d_head dropout
                          context_dim true use_checkpoint dt enable_flash_attention
                          cross_frame_attention unet_chunk_size (sw_blocks w d))
              (seq 0 depth) ;;
  let self := setattr self "transformer_blocks" (VList blocks) in
  proj_out <- (if negb use_linear
               then c <- Linear_init inner_dim in_channels true
                           (lw_weight (sw_proj_out w)) (lw_bias (sw_proj_out w)) ;;
                    zero_module (LConv2d (to_float c dt))
               else d <- Linear_init in_channels inner_dim true
                           (lw_weight (sw_proj_out w)) (lw_bias (sw_proj_out w)) ;;
                    zero_module (LDense (to_float d dt))) ;;
  let self := setattr self "proj_out" (VLayer proj_out) in
  let self := setattr self "use_linear" (VBool use_linear) in
  let self := setattr self "reshape" (VOp OpReshape) in
  Ok (setattr self "transpose" (VOp OpTranspose)).

(** Everything [SpatialTransformer.construct] does before its last
    statement [return x + x_in]. *)
Definition SpatialTransformer_body (self : Object) (x : Tensor)
    (context : option Tensor) : M Tensor :=
  '(b, c, h, w) <~ lift (unpack4 (shape x)) ;;
  x <~ lift (call_attr self "norm" x) ;;
  x <~ lift (ul <- attr_bool self "use_linear" ;;
             if negb ul then call_attr self "proj_in" x else Ok x) ;;
  x <~ lift (rs <- getattr self "reshape" ;; call_reshape rs x [b; c; h * w]) ;;
  x <~ lift (tr <- getattr self "transpose" ;; call_transpose tr x [0; 2; 1]) ;;
  x <~ lift (ul <- attr_bool self "use_linear" ;;
             if ul then call_attr self "proj_in" x else Ok x) ;;
  blocks <~ lift (bs <- getattr self "transformer_blocks" ;; as_list bs) ;;
  x <~ run_blocks blocks x context ;;
  x <~ lift (ul <- attr_bool self "use_linear" ;;
             if ul then call_attr self "proj_out" x else Ok x) ;;
  x <~ lift (rs <- getattr self "reshape" ;; call_reshape rs x [b; h; w; c]) ;;
  x <~ lift (tr <- getattr self "transpose" ;; call_transpose tr x [0; 3; 1; 2]) ;;
  lift (ul <- attr_bool self "use_linear" ;;
        if negb ul then call_attr self "proj_out" x else Ok x).

Definition SpatialTransformer_construct (self : Object) (x : Tensor)
    (context : option Tensor) : M Tensor :=
  let x_in := x in
  x <~ SpatialTransformer_body self x context ;;
  lift (tadd x x_in).

End Blocks.

(* ================================================================== *)
(** * A concrete instance to run the model on *)

(** Integers as values, with stand-ins for division and for the
    transcendental functions: the runs below observe shapes, control flow
    and exceptions only. *)
Definition ZScalar : Scalar := {|
  scalar := Z;
  f0 := 0%Z;
  fadd := Z.add;
  fmul := Z.mul;
  fdiv := fun a _ => a;
  fneg := Z.opp;
  fexp := fun z => z;
  fgelu := fun z => z;
  fnormalize := fun _ _ z => z;
  fpow_neg_half := fun _ => 1%Z;
  finfo_max := fun dt => match dt with
                         | float16 => 65504%Z
                         | _ => 340282346638528859811704183484516925440%Z
                         end;
  ftruthy := fun z => match z with Z0 => false | _ => true end
|}.

Module Sample.
#[local] Existing Instance ZScalar.

Definition ones (n : nat) : list Z := repeat 1%Z n.

(** The tensor of shape [s] holding 1, 2, 3, ... *)
Definition tensor (dt : DType) (s : list nat) : Tensor :=
  mkTensor dt s (map Z.of_nat (seq 1 (numel s))).

(** A bool mask of shape (b, nk) that masks the last key for every query. *)
Definition key_mask (b nk : nat) : Tensor :=
  tabulate bool_ [b; nk] (fun o => if nth 1 o 0 =? nk - 1 then 1%Z else 0%Z).

(** A backend without and with the fused kernel; the kernel stand-in
    returns a tensor of the shape of its query. *)
Definition cpu : Backend :=
  mkBackend false "CPU" false uint8 (fun _ _ q _ _ _ => Ok q).
Definition ascend : Backend :=
  mkBackend true "Ascend" false uint8 (fun _ _ q _ _ _ => Ok q).

Definition attn_weights (query_dim inner_dim : nat) : AttnWeights :=
  mkAttnWeights (ones (inner_dim * query_dim)) (ones (inner_dim * query_dim))
    (ones (inner_dim * query_dim)) (ones (query_dim * inner_dim)) (ones query_dim).

Definition the (r : result Object) : Object :=
  match r with Ok o => o | Err _ => new_object "" end.

(** [Attention(2)] *)
Definition attention2 : Object := the (Attention_init 2).

(** [CrossAttention(query_dim=4, heads=2, dim_head=2)] on the generic and
    on the accelerated backend (there with the enable flag set). *)
Definition ca : Object :=
  the (CrossAttention_init cpu "CrossAttention" 4 None 2 2 1%Z float16 false
         (attn_weights 4 4)).
Definition ca_flash : Object :=
  the (CrossAttention_init ascend "CrossAttention" 4 None 2 2 1%Z float16 true
         (attn_weights 4 4)).

(** [CrossFrameAttention(unet_chunk_size=2, query_dim=4, heads=2, dim_head=2)] *)
Definition cfa : Object :=
  the (CrossFrameAttention_init cpu 2 4 None 2 2 1%Z float32 false (attn_weights 4 4)).
Definition cfa_flash : Object :=
  the (CrossFrameAttention_init ascend 2 4 None 2 2 1%Z float32 true (attn_weights 4 4)).

(** What a masked call of [Attention(2)] does on q = k = v of shape
    (2, 3, 2) and element type [dt]: as the cell is built, and with
    [reshape] and [heads] supplied. *)
Definition masked_call (dt : DType) : list Event * result Tensor :=
  let q := tensor dt [2; 3; 2] in
  run (Attention_construct attention2 q q q (Some (key_mask 2 3))).

Definition with_attrs : Object :=
  setattr (setattr attention2 "reshape" (VOp OpReshape)) "heads" (VInt 1).

Definition supplied_call (dt : DType) (mask : option Tensor) : result Tensor :=
  let q := tensor dt [2; 3; 2] in
  snd (run (Attention_construct with_attrs q q q mask)).

(** Cells for the other runs: a feed-forward, transformer blocks without
    and with cross-frame attention, and spatial transformers whose heads
    do (2 * 16) and do not (1 * 16) add up to the 32 channels. *)
Definition lin_weights (cin cout : nat) : LinearWeights :=
  mkLinearWeights (ones (cout * cin)) (ones cout).

Definition norm_weights (c : nat) : NormWeights :=
  mkNormWeights (ones c) (repeat 0%Z c).

Definition block_weights (dim inner : nat) : BlockWeights :=
  mkBlockWeights (attn_weights dim inner) (attn_weights dim inner)
    (lin_weights dim (dim * 4 * 2)) (lin_weights (dim * 4) dim)
    (norm_weights dim) (norm_weights dim) (norm_weights dim).

Definition ff : Object :=
  the (FeedForward_init 4 None 4 true 1%Z float32 (lin_weights 4 32) (lin_weights 16 4)).

Definition block : Object :=
  the (BasicTransformerBlock_init cpu 4 2 2 1%Z None true true float32 false false 2
         (block_weights 4 4)).
Definition block_cf : Object :=
  the (BasicTransformerBlock_init cpu 4 2 2 1%Z None true true float32 false true 2
         (block_weights 4 4)).

Definition spatial_weights (inner : nat) : SpatialWeights :=
  mkSpatialWeights (norm_weights 32) (lin_weights 32 inner)
    (fun _ => block_weights inner inner) (lin_weights inner 32).

Definition st : Object :=
  the (SpatialTransformer_init cpu 32 2 16 1 1%Z None true false float32 false false 2
         (spatial_weights 32)).
Definition st_narrow : Object :=
  the (SpatialTransformer_init cpu 32 1 16 1 1%Z None true false float32 false false 2
         (spatial_weights 16)).

(** A projection for [GEGLU(4, 3)] and a [Dense(4, 2)] with bias. *)
Definition geglu_proj : Linear := mkLinear 4 6 (ones 24) (Some (ones 6)) float32.
Definition dense42 : Linear := mkLinear 4 2 (ones 8) (Some (ones 2)) float32.

(** A cell that does have a [reshape] attribute. *)
Definition cfa_reshape : Object := setattr cfa "reshape" (VOp OpReshape).

End Sample.

(* ================================================================== *)
(** * The attention of the specification, entry by entry *)

Section SpecAttention.
Context {S : Scalar}.

(** Section 4.1 of the specification, written out per entry:
    [sim = matmul(q, transpose(k)) * D^-0.5], then a softmax over the key
    axis, then [matmul(attn, v)]. *)
Definition spec_sim (q k : Tensor) (D : nat) (b i j : nat) : scalar :=
  fmul (fsum (map (fun c => fmul (tget q [b; i; c]) (tget k [b; j; c])) (seq 0 D)))
       (fpow_neg_half D).

Definition spec_attn (q k : Tensor) (D Nk : nat) (b i j : nat) : scalar :=
  fdiv (fexp (spec_sim q k D b i j))
       (fsum (map (fun j' => fexp (spec_sim q k D b i j')) (seq 0 Nk))).

Definition spec_attention (q k v : Tensor) (D Nk : nat) (b i d : nat) : scalar :=
  fsum (map (fun j => fmul (spec_attn q k D Nk b i j) (tget v [b; j; d])) (seq 0 Nk)).

End SpecAttention.

(* ================================================================== *)
(** * What [CrossAttention.__init__] leaves in [self] *)

Section InitFacts.
Context {S : Scalar}.
Variable env : Backend.

Record CrossAttention_facts (c : string) (qd cdim h dh : nat) (dr : scalar) (dt : DType)
    (efa : bool) (w : AttnWeights) (self : Object) : Prop := {
  ca_qd : qd <> 0;
  ca_cdim : cdim <> 0;
  ca_h : h <> 0;
  ca_dh : dh <> 0;
  ca_cls : cls self = c;
  ca_heads : getattr self "heads" = Ok (VInt h);
  ca_transpose : getattr self "transpose" = Ok (VOp OpTranspose);
  ca_to_q : getattr self "to_q" =
            Ok (VLayer (LDense (mkLinear qd (dh * h) (w_q w) None dt)));
  ca_to_k : getattr self "to_k" =
            Ok (VLayer (LDense (mkLinear cdim (dh * h) (w_k w) None dt)));
  ca_to_v : getattr self "to_v" =
            Ok (VLayer (LDense (mkLinear cdim (dh * h) (w_v w) None dt)));
  ca_to_out : getattr self "to_out" =
              Ok (VLayer (LSequential
                            [LDense (mkLinear (dh * h) qd (w_out w) (Some (b_out w)) dt);
                             LDropout dr]));
  ca_attention : exists att, Attention_init dh = Ok att /\
                             getattr self "attention" = Ok (of_object att);
  ca_efa : getattr self "enable_flash_attention" = Ok (VBool (flash_enabled env efa));
  ca_flash : getattr self "flash_attention" =
             Ok (if flash_enabled env efa then VFlash dh h true else VNone);
  ca_fa_dtype : flash_enabled env efa = true ->
                getattr self "fa_mask_dtype" =
                Ok (VDType (choose_flash_attention_dtype env));
  ca_no_reshape : hasattr self "reshape" = false
}.

(** What is assumed of the fused kernel where it is used: it returns a
    tensor of the shape of its query. *)
Definition kernel_keeps_shape : Prop :=
  forall hd hn q k v mask,
    exists out, flash_kernel env hd hn q k v mask = Ok out /\ shape out = shape q.

(** The context a cross-attention with keys of [cdim] channels accepts
    next to an input of shape (B, N, dim): none, when the keys are
    projected from the input itself, or a tensor of shape (B, Nk, cdim). *)
Definition context_fits (context : option Tensor) (B dim cdim : nat) : Prop :=
  match context with
  | None => cdim = dim
  | Some ctx => exists Nk, shape ctx = [B; Nk; cdim]
  end.

Definition context_nonempty (context : option Tensor) : Prop :=
  match context with
  | None => True
  | Some ctx => numel (shape ctx) <> 0
  end.

(** Where attention may take the accelerated path, the kernel is assumed
    to keep the shape of its query and the tensors are not empty. *)
Definition paths_usable (efa : bool) (context : option Tensor) (B N : nat) : Prop :=
  flash_enabled env efa = false \/
  (kernel_keeps_shape /\ B * N <> 0 /\ context_nonempty context).

Definition all_zero (t : Tensor) : Prop := Forall (fun a => a = f0) (data t).

End InitFacts.

(* ================================================================== *)
(** * [uniq] *)

Section Uniq.
Variable K : Type.
Variable eqb : K -> K -> bool.      (* [==] on the (hashable) elements *)

(** A Python dict keeps its keys in insertion order; assigning to a key
    that is present keeps the key where it is. *)
Fixpoint dict_set (V : Type) (d : list (K * V)) (k : K) (v : V) : list (K * V) :=
  match d with
  | [] => [(k, v)]
  | (k', v') :: d' => if eqb k' k then (k', v) :: d' else (k', v') :: dict_set d' k v
  end.

(** [{el: True for el in arr}.keys()] *)
Definition uniq (arr : list K) : list K :=
  map fst (fold_left (fun d el => dict_set d el true) arr []).

End Uniq.

(* ================================================================== *)
(** * [uniq] *)

Section UniqProps.
Variable K : Type.
Variable eqb : K -> K -> bool.
Hypothesis eqb_eq : forall a b, eqb a b = true <-> a = b.

Lemma dict_set_keys_present (V : Type) (d : list (K * V)) k v :
  In k (map fst d) -> map fst (dict_set eqb d k v) = map fst d.
Proof.
  induction d as [|[k' v'] d IH]; cbn; intros Hin; [contradiction|].
  destruct (eqb k' k) eqn:E; cbn; [reflexivity|].
  f_equal. apply IH. destruct Hin as [->|Hin]; [|exact Hin].
  assert (eqb k k = true) by now apply eqb_eq. congruence.
Qed.

Lemma dict_set_keys_absent (V : Type) (d : list (K * V)) k v :
  ~ In k (map fst d) -> map fst (dict_set eqb d k v) = map fst d ++ [k].
Proof.
  induction d as [|[k' v'] d IH]; cbn; intros Hin; [reflexivity|].
  destruct (eqb k' k) eqn:E; cbn.
  - apply eqb_eq in E. tauto.
  - f_equal. apply IH. tauto.
Qed.

Lemma In_dec_keys (k : K) (l : list K) : In k l \/ ~ In k l.
Proof.
  induction l as [|a l IH]; [now right|].
  destruct (eqb a k) eqn:E.
  - apply eqb_eq in E. left. now left.
  - destruct IH as [H|H]; [left; now right|right].
    intros [->|Hin]; [|contradiction].
    assert (eqb k k = true) by now apply eqb_eq. congruence.
Qed.

Lemma fold_keys_invariant (arr : list K) :
  forall d : list (K * bool),
    NoDup (map fst d) ->
    let r := map fst (fold_left (fun d el => dict_set eqb d el true) arr d) in
    NoDup r /\ (forall x, In x r <-> In x (map fst d) \/ In x arr) /\
    (NoDup (map fst d ++ arr) -> r = map fst d ++ arr).
Proof.
  induction arr as [|a arr IH]; intros d Hd; cbn.
  - split; [exact Hd|]. split; [tauto|]. intros _. now rewrite app_nil_r.
  - destruct (In_dec_keys a (map fst d)) as [Hin|Hnin].
    + pose proof (@dict_set_keys_present bool d a true Hin) as E.
      destruct (IH (dict_set eqb d a true) ltac:(now rewrite E)) as (H1 & H2 & H3).
      split; [exact H1|]. split.
      * intros x. rewrite H2, E. split; [tauto|]. intros [H|[->|H]]; tauto.
      * intros Hnd. exfalso. apply NoDup_remove_2 in Hnd. apply Hnd.
        apply in_or_app. now left.
    + pose proof (@dict_set_keys_absent bool d a true Hnin) as E.
      assert (Hd' : NoDup (map fst (dict_set eqb d a true))).
      { rewrite E. apply NoDup_app; [exact Hd | repeat constructor; tauto |].
        intros x Hx [<-|[]]. contradiction. }
      destruct (IH (dict_set eqb d a true) Hd') as (H1 & H2 & H3).
      split; [exact H1|]. split.
      * intros x. rewrite H2, E, in_app_iff. cbn. tauto.
      * intros Hnd. rewrite H3; rewrite E, <- app_assoc; [reflexivity | exact Hnd].
Qed.

(** X12: [uniq] returns the elements of its argument without repetition,
    and returns a list that has no repetition as it is (the order of
    first occurrences is kept). *)
Theorem uniq_spec (arr : list K) :
  NoDup (uniq eqb arr) /\
  (forall x, In x (uniq eqb arr) <-> In x arr) /\
  (NoDup arr -> uniq eqb arr = arr).
Proof.
  destruct (@fold_keys_invariant arr [] (NoDup_nil K)) as (H1 & H2 & H3).
  split; [exact H1|]. split; [|exact H3].
  intros x. rewrite (H2 x). cbn. tauto.
Qed.
End UniqProps.
(* ================================================================== *)
(** * Index arithmetic *)

Section IndexLemmas.
Context {S : Scalar}.

Lemma unravel_length (s : list nat) : forall i, length (unravel s i) = length s.
Proof. induction s as [|d s IH]; intros i; simpl; [reflexivity | now rewrite IH]. Qed.

Lemma ravel_unravel (s : list nat) : forall i, i < numel s -> ravel s (unravel s i) = i.
Proof.
  induction s as [|d s IH]; intros i Hi; simpl in *.
  - lia.
  - assert (Hs : numel s <> 0) by (intro E; rewrite E in Hi; lia).
    rewrite IH by (apply Nat.mod_upper_bound; exact Hs).
    pose proof (Nat.div_mod_eq i (numel s)). lia.
Qed.

Lemma unravel_bounds (s : list nat) :
  forall i, i < numel s -> Forall2 lt (unravel s i) s.
Proof.
  induction s as [|d s IH]; intros i Hi; simpl in *.
  - constructor.
  - assert (Hs : numel s <> 0) by (intro E; rewrite E in Hi; lia).
    constructor.
    + apply Nat.Div0.div_lt_upper_bound. lia.
    + apply IH. apply Nat.mod_upper_bound. exact Hs.
Qed.

Lemma ravel_lt (s : list nat) :
  forall idx, Forall2 lt idx s -> ravel s idx < numel s.
Proof.
  induction s as [|d s IH]; intros idx H; inversion H; subst; simpl.
  - lia.
  - specialize (IH _ H4). nia.
Qed.

Lemma unravel_ravel (s : list nat) :
  forall idx, Forall2 lt idx s -> unravel s (ravel s idx) = idx.
Proof.
  induction s as [|d s IH]; intros idx H; inversion H; subst; simpl.
  - reflexivity.
  - pose proof (ravel_lt H4) as Hlt.
    assert (Hs : numel s <> 0) by lia.
    f_equal.
    + rewrite Nat.div_add_l by exact Hs. rewrite Nat.div_small by exact Hlt. lia.
    + rewrite Nat.add_comm, Nat.Div0.mod_add, Nat.mod_small by exact Hlt.
      apply IH. exact H4.
Qed.

Lemma nth_map_seq (A : Type) (f : nat -> A) (n i : nat) (d : A) :
  i < n -> nth i (map f (seq 0 n)) d = f i.
Proof.
  intros Hi. rewrite (nth_indep _ d (f 0)) by (rewrite length_map, length_seq; exact Hi).
  rewrite (map_nth f (seq 0 n) 0 i). rewrite seq_nth by exact Hi. reflexivity.
Qed.

Lemma tabulate_wf dt s f : wf (tabulate dt s f).
Proof. unfold wf, tabulate; simpl. now rewrite length_map, length_seq. Qed.

Lemma tget_tabulate dt s f idx :
  Forall2 lt idx s -> tget (tabulate dt s f) idx = f idx.
Proof.
  intros H. unfold tget, tabulate; simpl.
  rewrite nth_map_seq by (apply ravel_lt; exact H).
  now rewrite unravel_ravel.
Qed.

(** Two tensors with the same shape and the same entries are equal. *)
Lemma tensor_ext (t u : Tensor) :
  wf t -> wf u -> dtype t = dtype u -> shape t = shape u ->
  (forall idx, Forall2 lt idx (shape t) -> tget t idx = tget u idx) ->
  t = u.
Proof.
  destruct t as [dt s d], u as [du s' d']; unfold wf, tget; simpl.
  intros Ht Hu -> <- Hget. f_equal.
  apply nth_ext with (d := f0) (d' := f0); [congruence|].
  intros i Hi. rewrite Ht in Hi.
  specialize (Hget (unravel s i) (unravel_bounds s Hi)).
  now rewrite ravel_unravel in Hget.
Qed.

End IndexLemmas.

(* ================================================================== *)
(** * Head flattening *)

Section HeadRoundTrip.
Context {S : Scalar}.

Ltac inv_bounds H :=
  repeat match goal with
         | H' : Forall2 lt _ (_ :: _) |- _ => inversion H'; subst; clear H'
         | H' : Forall2 lt _ [] |- _ => inversion H'; subst; clear H'
         end.

Lemma transpose_0213 (x : Tensor) a b c d :
  shape x = [a; b; c; d] ->
  transpose x [0; 2; 1; 3] =
  Ok (tabulate (dtype x) [a; c; b; d]
        (fun o => tget x (source_index [0; 2; 1; 3] o))).
Proof. intros Hs. unfold transpose. rewrite Hs. reflexivity. Qed.

Lemma tget_transpose_0213 (x : Tensor) a b c d i j k l :
  shape x = [a; b; c; d] ->
  i < a -> j < c -> k < b -> l < d ->
  tget (tabulate (dtype x) [a; c; b; d]
          (fun o => tget x (source_index [0; 2; 1; 3] o))) [i; j; k; l]
  = tget x [i; k; j; l].
Proof.
  intros Hs Hi Hj Hk Hl. rewrite tget_tabulate by (repeat constructor; assumption).
  reflexivity.
Qed.

(** Swapping the two middle axes twice gives the tensor back. *)
Lemma transpose_0213_involutive (x y : Tensor) a b c d :
  wf x -> shape x = [a; b; c; d] ->
  transpose x [0; 2; 1; 3] = Ok y ->
  transpose y [0; 2; 1; 3] = Ok x.
Proof.
  intros Hwf Hs Hy. rewrite (transpose_0213 x Hs) in Hy. injection Hy as <-.
  erewrite transpose_0213 by reflexivity. f_equal. simpl dtype.
  apply tensor_ext; simpl; auto using tabulate_wf.
  intros idx Hb. inv_bounds Hb.
  rewrite tget_tabulate by (repeat constructor; assumption).
  cbn [source_index map seq length position nth Nat.eqb].
  rewrite tget_tabulate by (repeat constructor; assumption).
  reflexivity.
Qed.

Lemma floordiv_mul_l (h d : nat) : 0 < h -> floordiv (h * d) h = Ok d.
Proof.
  intros Hh. unfold floordiv. destruct (Nat.eqb_spec h 0); [lia|].
  now rewrite Nat.mul_comm, Nat.div_mul by assumption.
Qed.

Lemma floordiv_mul_r (b h : nat) : 0 < h -> floordiv (b * h) h = Ok b.
Proof. intros Hh. rewrite Nat.mul_comm. now apply floordiv_mul_l. Qed.

Lemma reshape_ok (x : Tensor) (s : list nat) :
  numel s = numel (shape x) -> reshape x s = Ok (mkTensor (dtype x) s (data x)).
Proof. intros E. unfold reshape. now rewrite E, Nat.eqb_refl. Qed.

Lemma _rearange_in_ok (x : Tensor) b n h d :
  shape x = [b; n; h * d] -> 0 < h ->
  exists y, _rearange_in x h = Ok y /\
            shape y = [b * h; n; d] /\ dtype y = dtype x /\ wf y /\
            transpose (mkTensor (dtype x) [b; n; h; d] (data x)) [0; 2; 1; 3]
            = Ok (mkTensor (dtype x) [b; h; n; d] (data y)).
Proof.
  intros Hs Hh. unfold _rearange_in. rewrite Hs. cbn [unpack3 rbind].
  rewrite floordiv_mul_l by assumption. cbn [rbind].
  rewrite reshape_ok by (rewrite Hs; simpl; lia). cbn [rbind].
  erewrite transpose_0213 by reflexivity. cbn [rbind].
  rewrite reshape_ok by (simpl; lia).
  eexists. split; [reflexivity|]. repeat split.
  unfold wf; simpl. rewrite length_map, length_seq. lia.
Qed.

Lemma _rearange_out_ok (x : Tensor) b n h d :
  shape x = [b * h; n; d] -> 0 < h ->
  exists y, _rearange_out x h = Ok y /\
            shape y = [b; n; h * d] /\ dtype y = dtype x /\ wf y /\
            transpose (mkTensor (dtype x) [b; h; n; d] (data x)) [0; 2; 1; 3]
            = Ok (mkTensor (dtype x) [b; n; h; d] (data y)).
Proof.
  intros Hs Hh. unfold _rearange_out. rewrite Hs. cbn [unpack3 rbind].
  rewrite floordiv_mul_r by assumption. cbn [rbind].
  rewrite reshape_ok by (rewrite Hs; simpl; lia). cbn [rbind].
  erewrite transpose_0213 by reflexivity. cbn [rbind].
  rewrite reshape_ok by (simpl; lia).
  eexists. split; [reflexivity|]. repeat split.
  unfold wf; simpl. rewrite length_map, length_seq. lia.
Qed.

(** C9: on a tensor of shape (B, N, H*D), [_rearange_in] returns a tensor
    of shape (B*H, N, D), and [_rearange_out] applied to it returns the
    original tensor: same shape, same element type, same values. *)
Theorem C9_head_round_trip (x : Tensor) (B N H D : nat) :
  wf x -> shape x = [B; N; H * D] -> 0 < H ->
  exists y, _rearange_in x H = Ok y /\
            shape y = [B * H; N; D] /\
            _rearange_out y H = Ok x.
Proof.
  intros Hwf Hs Hh.
  destruct (@_rearange_in_ok x B N H D Hs Hh) as (y & Hy & Hsy & Hdy & Hwy & Ht).
  exists y. split; [exact Hy|]. split; [exact Hsy|].
  destruct (@_rearange_out_ok y B N H D Hsy Hh) as (z & Hz & Hsz & Hdz & Hwz & Ht').
  rewrite Hz. f_equal.
  rewrite Hdy in Ht'.
  assert (Hx1 : wf (mkTensor (dtype x) [B; N; H; D] (data x))).
  { unfold wf in *; simpl. rewrite Hwf, Hs. simpl. lia. }
  pose proof (transpose_0213_involutive Hx1 eq_refl Ht) as Hinv.
  rewrite Hinv in Ht'. injection Ht' as Hd.
  destruct x as [dt s dx], z as [dz sz dzz]; simpl in *. congruence.
Qed.

End HeadRoundTrip.

(* ================================================================== *)
(** * More on head flattening *)

Section HeadLayout.
Context {S : Scalar}.

Lemma Ok_inj (A : Type) (a b : A) : Ok a = Ok b -> a = b.
Proof. now intros H; injection H. Qed.

(** X8: on a tensor of shape (B*H, N, D), [_rearange_out] returns a tensor
    of shape (B, N, H*D) and [_rearange_in] applied to it returns the
    original tensor. *)
Theorem head_round_trip_back (y : Tensor) (B N H D : nat) :
  wf y -> shape y = [B * H; N; D] -> 0 < H ->
  exists x, _rearange_out y H = Ok x /\
            shape x = [B; N; H * D] /\
            _rearange_in x H = Ok y.
Proof.
  intros Hwf Hs Hh.
  destruct (@_rearange_out_ok _ y B N H D Hs Hh) as (x & Hx & Hsx & Hdx & Hwx & Ht).
  exists x. split; [exact Hx|]. split; [exact Hsx|].
  destruct (@_rearange_in_ok _ x B N H D Hsx Hh) as (z & Hz & Hsz & Hdz & Hwz & Ht').
  rewrite Hz. f_equal.
  rewrite Hdx in Ht'.
  assert (Hy1 : wf (mkTensor (dtype y) [B; H; N; D] (data y))).
  { unfold wf in *; simpl. rewrite Hwf, Hs. simpl. lia. }
  pose proof (@transpose_0213_involutive _ _ _ B H N D Hy1 eq_refl Ht) as Hinv.
  rewrite Hinv in Ht'. injection Ht' as Hd.
  destruct y as [dt s dy], z as [dz sz dzz]; simpl in *. congruence.
Qed.

(** X9: the layout of the flattened heads: entry (b*H + h, n, d) of the
    result is entry (b, n, h*D + d) of the input. *)
Theorem _rearange_in_entries (x y : Tensor) (B N H D : nat) :
  shape x = [B; N; H * D] -> 0 < H ->
  _rearange_in x H = Ok y ->
  forall b h n d, b < B -> h < H -> n < N -> d < D ->
    tget y [b * H + h; n; d] = tget x [b; n; h * D + d].
Proof.
  intros Hs Hh Hy b h n d Hb Hhh Hn Hd.
  destruct (@_rearange_in_ok _ x B N H D Hs Hh) as (y' & Hy' & Hsy & _ & _ & Ht).
  rewrite Hy in Hy'. injection Hy' as <-.
  pose proof (@tget_transpose_0213 _ (mkTensor (dtype x) [B; N; H; D] (data x))
                B N H D b h n d eq_refl Hb Hhh Hn Hd) as Hg.
  rewrite (@transpose_0213 _ (mkTensor (dtype x) [B; N; H; D] (data x)) B N H D eq_refl) in Ht.
  apply Ok_inj in Ht. rewrite Ht in Hg.
  unfold tget in *. rewrite Hsy, Hs. cbn [shape data ravel numel fold_right] in *.
  replace ((b * H + h) * (N * (D * 1)) + (n * (D * 1) + (d * 1 + 0)))
    with (b * (H * (N * (D * 1))) + (h * (N * (D * 1)) + (n * (D * 1) + (d * 1 + 0)))) by lia.
  rewrite Hg. f_equal. lia.
Qed.

(** X10: on a rank-3 tensor of shape (b, n, c), [_rearange_in] raises
    ZeroDivisionError for 0 heads, raises at the first reshape when the
    heads do not divide c and the tensor is not empty, and returns exactly
    when heads <> 0 and (heads divides c or the tensor is empty). *)
Theorem _rearange_in_succeeds_iff (x : Tensor) (b n c h : nat) :
  shape x = [b; n; c] ->
  (h = 0 -> _rearange_in x h = Err ZeroDivisionError) /\
  (h <> 0 -> c mod h <> 0 -> b * n <> 0 -> _rearange_in x h = Err (ValueError "reshape")) /\
  (is_ok (_rearange_in x h) = true <-> h <> 0 /\ (c mod h = 0 \/ b * n = 0)).
Proof.
  intros Hs.
  assert (Hzero : h = 0 -> _rearange_in x h = Err ZeroDivisionError).
  { intros ->. unfold _rearange_in. rewrite Hs. reflexivity. }
  assert (Hpos : h <> 0 ->
            _rearange_in x h =
            if numel [b; n; h; c / h] =? numel [b; n; c]
            then (x <- transpose (mkTensor (dtype x) [b; n; h; c / h] (data x)) [0; 2; 1; 3] ;;
                  reshape x [b * h; n; c / h])
            else Err (ValueError "reshape")).
  { intros Hh. unfold _rearange_in, floordiv, reshape. rewrite Hs.
    destruct (Nat.eqb_spec h 0); [contradiction|]. cbn [unpack3 rbind].
    destruct (numel [b; n; h; c / h] =? numel [b; n; c]); reflexivity. }
  assert (Hnum : h <> 0 -> (numel [b; n; h; c / h] = numel [b; n; c] <-> c mod h = 0 \/ b * n = 0)).
  { intros Hh. cbn [numel fold_right].
    pose proof (Nat.div_mod_eq c h) as E.
    pose proof (Nat.mod_upper_bound c h Hh) as U.
    split.
    - intros Heq. destruct (Nat.eq_dec (b * n) 0) as [Z|NZ]; [now right|left].
      assert (h * (c / h) = c) by nia. lia.
    - intros [Hm | Hz]; [rewrite Hm in E; assert (h * (c / h) = c) by lia; nia | nia]. }
  split; [exact Hzero|]. split.
  - intros Hh Hm Hbn. rewrite (Hpos Hh).
    destruct (Nat.eqb_spec (numel [b; n; h; c / h]) (numel [b; n; c])) as [E|]; [|reflexivity].
    apply (Hnum Hh) in E. lia.
  - split.
    + intros Hok. destruct (Nat.eq_dec h 0) as [Z|NZ].
      * rewrite (Hzero Z) in Hok. discriminate.
      * split; [exact NZ|]. apply (Hnum NZ).
        rewrite (Hpos NZ) in Hok.
        destruct (Nat.eqb_spec (numel [b; n; h; c / h]) (numel [b; n; c])); [assumption|discriminate].
    + intros [NZ Hc]. rewrite (Hpos NZ).
      apply (Hnum NZ) in Hc. rewrite Hc, Nat.eqb_refl.
      erewrite transpose_0213 by reflexivity. cbn [rbind].
      rewrite reshape_ok by (cbn; lia). reflexivity.
Qed.

End HeadLayout.

(* ================================================================== *)
(** * [Attention.construct] *)

Section AttentionCore.
Context {S : Scalar}.

Lemma map_seq_ext (A : Type) (f g : nat -> A) (n : nat) :
  (forall i, i < n -> f i = g i) -> map f (seq 0 n) = map g (seq 0 n).
Proof. intros H. apply map_ext_in. intros i Hi. apply in_seq in Hi. apply H. lia. Qed.

Lemma transpose_021_spec (x : Tensor) a b c :
  shape x = [a; b; c] ->
  exists y, transpose x [0; 2; 1] = Ok y /\ shape y = [a; c; b] /\
            dtype y = dtype x /\ wf y /\
            forall i j l, i < a -> j < c -> l < b -> tget y [i; j; l] = tget x [i; l; j].
Proof.
  intros Hs. unfold transpose. rewrite Hs. cbn [length is_perm].
  eexists. split; [reflexivity|]. cbn [permute_shape map nth].
  repeat split; [apply tabulate_wf|].
  intros i j l Hi Hj Hl. rewrite tget_tabulate by (repeat constructor; assumption).
  reflexivity.
Qed.

Lemma matmul_spec (x y : Tensor) b n k m :
  shape x = [b; n; k] -> shape y = [b; k; m] ->
  exists z, matmul x y = Ok z /\ shape z = [b; n; m] /\
            dtype z = promote (dtype x) (dtype y) /\ wf z /\
            forall i j l, i < b -> j < n -> l < m ->
              tget z [i; j; l] =
              fsum (map (fun c => fmul (tget x [i; j; c]) (tget y [i; c; l])) (seq 0 k)).
Proof.
  intros Hx Hy. unfold matmul. rewrite Hx, Hy, !Nat.eqb_refl. cbn [andb].
  eexists. split; [reflexivity|]. repeat split; [apply tabulate_wf|].
  intros i j l Hi Hj Hl. rewrite tget_tabulate by (repeat constructor; assumption).
  reflexivity.
Qed.

Lemma scale_by_wf (x : Tensor) (c : scalar) : wf x -> wf (scale_by x c).
Proof. unfold wf, scale_by; simpl. now rewrite length_map. Qed.

Lemma tget_scale_by (x : Tensor) (c : scalar) (idx : list nat) :
  wf x -> Forall2 lt idx (shape x) ->
  tget (scale_by x c) idx = fmul (tget x idx) c.
Proof.
  intros Hwf Hb. unfold tget, scale_by; simpl.
  pose proof (ravel_lt Hb) as Hlt. rewrite <- Hwf in Hlt.
  rewrite (nth_indep _ f0 (fmul f0 c)) by (rewrite length_map; exact Hlt).
  apply (map_nth (fun a => fmul a c)).
Qed.

Lemma softmax_spec3 (x : Tensor) b n m i j l :
  shape x = [b; n; m] -> i < b -> j < n -> l < m ->
  tget (softmax x) [i; j; l] =
  fdiv (fexp (tget x [i; j; l]))
       (fsum (map (fun l' => fexp (tget x [i; j; l'])) (seq 0 m))).
Proof.
  intros Hs Hi Hj Hl. unfold softmax. rewrite Hs.
  rewrite tget_tabulate by (repeat constructor; assumption).
  reflexivity.
Qed.

Lemma Attention_init_inv (D : nat) (self : Object) :
  Attention_init D = Ok self ->
  D <> 0 /\
  self = mkObject "Attention"
           [("scale"%string, VFloat (fpow_neg_half D));
            ("transpose"%string, VOp OpTranspose);
            ("softmax"%string, VOp OpSoftmax)].
Proof.
  unfold Attention_init, pow_neg_half. destruct (Nat.eqb_spec D 0); cbn; [discriminate|].
  intros H; injection H as <-. split; [assumption|reflexivity].
Qed.

(** Without a mask the call records the softmax on the scaled
    similarities and returns the product with [v]. *)
Lemma Attention_construct_unmasked_from (D : nat) (self : Object)
    (q k v kt qk out : Tensor) (l : list Event) :
  Attention_init D = Ok self ->
  transpose k [0; 2; 1] = Ok kt ->
  matmul q kt = Ok qk ->
  matmul (softmax (scale_by qk (fpow_neg_half D))) v = Ok out ->
  Attention_construct self q k v None l =
    (l ++ [EvAttention q k v None; EvSoftmax (scale_by qk (fpow_neg_half D))], Ok out).
Proof.
  intros Hinit Hkt Hqk Hout. apply Attention_init_inv in Hinit as [HD ->].
  unfold Attention_construct, mbind, emit, lift, attr_float, call_softmax, mret.
  cbn [getattr lookup attrs cls String.eqb Ascii.eqb Bool.eqb rbind
       call_transpose as_float].
  rewrite Hkt, Hqk. cbn. rewrite Hout, <- app_assoc. reflexivity.
Qed.

Lemma Attention_construct_unmasked_run (D : nat) (self : Object)
    (q k v kt qk out : Tensor) :
  Attention_init D = Ok self ->
  transpose k [0; 2; 1] = Ok kt ->
  matmul q kt = Ok qk ->
  matmul (softmax (scale_by qk (fpow_neg_half D))) v = Ok out ->
  run (Attention_construct self q k v None) =
    ([EvAttention q k v None; EvSoftmax (scale_by qk (fpow_neg_half D))], Ok out).
Proof.
  intros Hinit Hkt Hqk Hout. unfold run.
  now rewrite (@Attention_construct_unmasked_from D self q k v kt qk out [] Hinit Hkt Hqk Hout).
Qed.

(** The shape of what the unmasked call returns. *)
Lemma Attention_construct_unmasked_shape (D : nat) (att : Object) (q k v : Tensor)
    B Nq Nk (l : list Event) :
  Attention_init D = Ok att ->
  shape q = [B; Nq; D] -> shape k = [B; Nk; D] -> shape v = [B; Nk; D] ->
  exists sim out,
    Attention_construct att q k v None l =
      (l ++ [EvAttention q k v None; EvSoftmax sim], Ok out) /\
    shape out = [B; Nq; D] /\ wf out.
Proof.
  intros Hinit Hq Hk Hv.
  destruct (@transpose_021_spec k B Nk D Hk) as (kt & Hkt & Hskt & _).
  destruct (@matmul_spec q kt B Nq D Nk Hq Hskt) as (qk & Hqk & Hsqk & _).
  destruct (@matmul_spec (softmax (scale_by qk (fpow_neg_half D))) v B Nq Nk D Hsqk Hv)
    as (out & Hout & Hsout & Hdout & Hwout & _).
  exists (scale_by qk (fpow_neg_half D)), out.
  split; [|auto].
  exact (@Attention_construct_unmasked_from D att q k v kt qk out l Hinit Hkt Hqk Hout).
Qed.

(** C1: for q of shape (B', Nq, D) and k, v of shape (B', Nk, D), and no
    mask, [Attention.construct] (of an [Attention(D)]) returns
    [matmul(softmax(matmul(q, transpose(k)) * D^-0.5), v)]; the result has
    shape (B', Nq, D) and its entries are those of the attention of the
    specification, whose softmax runs over the key axis. *)
Theorem C1_attention_unmasked (self : Object) (q k v : Tensor) (B Nq Nk D : nat) :
  Attention_init D = Ok self ->
  shape q = [B; Nq; D] -> shape k = [B; Nk; D] -> shape v = [B; Nk; D] ->
  exists kt qk out,
    transpose k [0; 2; 1] = Ok kt /\
    matmul q kt = Ok qk /\
    matmul (softmax (scale_by qk (fpow_neg_half D))) v = Ok out /\
    snd (run (Attention_construct self q k v None)) = Ok out /\
    shape out = [B; Nq; D] /\
    forall b i d, b < B -> i < Nq -> d < D ->
      tget out [b; i; d] = spec_attention q k v D Nk b i d.
Proof.
  intros Hinit Hq Hk Hv.
  destruct (@transpose_021_spec k B Nk D Hk) as (kt & Hkt & Hskt & _ & _ & Hgkt).
  destruct (@matmul_spec q kt B Nq D Nk Hq Hskt) as (qk & Hqk & Hsqk & _ & Hwqk & Hgqk).
  set (sim := scale_by qk (fpow_neg_half D)).
  assert (Hssim : shape (softmax sim) = [B; Nq; Nk]) by exact Hsqk.
  destruct (@matmul_spec (softmax sim) v B Nq Nk D Hssim Hv)
    as (out & Hout & Hsout & _ & _ & Hgout).
  exists kt, qk, out. repeat split; try assumption.
  - now rewrite (@Attention_construct_unmasked_run D self q k v kt qk out Hinit Hkt Hqk Hout).
  - intros b i d Hb Hi Hd. rewrite Hgout by assumption.
    unfold spec_attention. apply f_equal, map_seq_ext. intros j Hj. f_equal.
    assert (Hsim : forall j', j' < Nk -> tget sim [b; i; j'] = spec_sim q k D b i j').
    { intros j' Hj'. unfold sim.
      rewrite tget_scale_by by (try exact Hwqk; rewrite Hsqk; repeat constructor; assumption).
      rewrite Hgqk by assumption. unfold spec_sim. f_equal. apply f_equal, map_seq_ext.
      intros c Hc. now rewrite Hgkt. }
    rewrite (@softmax_spec3 sim B Nq Nk b i j Hsqk Hb Hi Hj).
    unfold spec_attn. rewrite Hsim by assumption. f_equal.
    apply f_equal, map_seq_ext. intros j' Hj'. now rewrite Hsim.
Qed.

End AttentionCore.

(* ================================================================== *)
(** * Constructors *)

Section InitLemmas.
Context {S : Scalar}.
Variable env : Backend.

Lemma Linear_init_inv cin cout hb w b l :
  Linear_init cin cout hb w b = Ok l ->
  cin <> 0 /\ cout <> 0 /\ l = mkLinear cin cout w (if hb then Some b else None) float32.
Proof.
  unfold Linear_init. destruct (Nat.eqb_spec cin 0), (Nat.eqb_spec cout 0); cbn;
    try discriminate. intros H; injection H as <-. auto.
Qed.

Lemma CrossAttention_init_facts c qd cd h dh dr dt efa w self :
  CrossAttention_init env c qd cd h dh dr dt efa w = Ok self ->
  CrossAttention_facts env c qd (default cd (inl qd)) h dh dr dt efa w self.
Proof.
  unfold CrossAttention_init.
  destruct (Linear_init qd _ _ _ _) as [lq|] eqn:Hq; [|discriminate].
  destruct (Linear_init (default cd (inl qd)) (dh * h) false (w_k w) [])
    as [lk|] eqn:Hk; [|discriminate].
  destruct (Linear_init (default cd (inl qd)) (dh * h) false (w_v w) [])
    as [lv|] eqn:Hv; [|discriminate].
  destruct (Linear_init (dh * h) _ _ _ _) as [lo|] eqn:Ho; [|discriminate].
  cbn [rbind].
  destruct (Attention_init dh) as [att|] eqn:Ha; [|discriminate].
  cbn [rbind].
  apply Linear_init_inv in Hq as (Hqd & Hin & ->).
  apply Linear_init_inv in Hk as (Hcd & _ & ->).
  apply Linear_init_inv in Hv as (_ & _ & ->).
  apply Linear_init_inv in Ho as (_ & _ & ->).
  assert (h <> 0 /\ dh <> 0) as [Hh Hdh] by lia.
  destruct (flash_enabled env efa) eqn:Hefa; intros H; injection H as <-;
    (constructor; rewrite ?Hefa; try assumption; try reflexivity; try discriminate;
     exists att; split; [exact Ha | reflexivity]).
Qed.

End InitLemmas.

(* ================================================================== *)
(** * [Attention.construct] with a mask *)

Section MaskedAttention.
Context {S : Scalar}.

(** With a mask, and the similarity matrix formed, the call raises at
    [self.reshape]. *)
Lemma Attention_construct_masked_from (D : nat) (att : Object)
    (q k v mask kt qk : Tensor) (l : list Event) :
  Attention_init D = Ok att ->
  transpose k [0; 2; 1] = Ok kt ->
  matmul q kt = Ok qk ->
  Attention_construct att q k v (Some mask) l =
    (l ++ [EvAttention q k v (Some mask)], Err (AttributeError "Attention" "reshape")).
Proof.
  intros Hinit Hkt Hqk. apply Attention_init_inv in Hinit as [HD ->].
  unfold Attention_construct, mbind, emit, lift, attr_float, Attention_mask_block.
  cbn [getattr lookup attrs cls String.eqb Ascii.eqb Bool.eqb rbind
       call_transpose as_float].
  rewrite Hkt, Hqk. reflexivity.
Qed.

(** C10: a call of [Attention.construct] with a mask raises before any
    softmax is computed.  [Attention.__init__] defines neither
    [self.reshape] nor [self.heads]; as soon as the similarity matrix has
    been formed, the mask branch raises the AttributeError for
    [self.reshape].  Were both attributes defined (with any values) and
    the call returned, the softmax would still be given the very
    similarity matrix of the unmasked computation, since the result of
    [masked_fill] is dropped. *)
Theorem C10_masked_attention_raises (D : nat) (self : Object) (q k v mask : Tensor) :
  Attention_init D = Ok self ->
  hasattr self "reshape" = false /\ hasattr self "heads" = false /\
  (exists log e, run (Attention_construct self q k v (Some mask)) = (log, Err e) /\
                 existsb is_softmax log = false) /\
  (forall kt qk, transpose k [0; 2; 1] = Ok kt -> matmul q kt = Ok qk ->
     run (Attention_construct self q k v (Some mask)) =
       ([EvAttention q k v (Some mask)], Err (AttributeError "Attention" "reshape"))) /\
  (forall rs h log out,
     run (Attention_construct (setattr (setattr self "reshape" rs) "heads" h)
            q k v (Some mask)) = (log, Ok out) ->
     exists kt qk,
       transpose k [0; 2; 1] = Ok kt /\ matmul q kt = Ok qk /\
       log = [EvAttention q k v (Some mask); EvSoftmax (scale_by qk (fpow_neg_half D))] /\
       matmul (softmax (scale_by qk (fpow_neg_half D))) v = Ok out).
Proof.
  intros Hinit. apply Attention_init_inv in Hinit as [HD ->].
  split; [reflexivity|]. split; [reflexivity|]. split; [|split].
  - unfold run, Attention_construct, mbind, emit, lift, attr_float, call_softmax, mret,
      Attention_mask_block.
    cbn [getattr lookup attrs cls String.eqb Ascii.eqb Bool.eqb rbind
         call_transpose as_float app].
    destruct (transpose k [0; 2; 1]) as [kt|e];
      [|do 2 eexists; split; reflexivity].
    destruct (matmul q kt) as [qk|e];
      do 2 eexists; split; reflexivity.
  - intros kt qk Hkt Hqk.
    unfold run, Attention_construct, mbind, emit, lift, attr_float, call_softmax, mret,
      Attention_mask_block.
    cbn [getattr lookup attrs cls String.eqb Ascii.eqb Bool.eqb rbind
         call_transpose as_float app].
    rewrite Hkt, Hqk. reflexivity.
  - intros rs h log out.
    unfold run, Attention_construct, mbind, emit, lift, attr_float, call_softmax, mret, setattr.
    cbn [getattr lookup attrs cls String.eqb Ascii.eqb Bool.eqb rbind
         call_transpose as_float app].
    destruct (transpose k [0; 2; 1]) as [kt|e] eqn:Hkt; [|discriminate].
    destruct (matmul q kt) as [qk|e] eqn:Hqk; [|discriminate].
    destruct (Attention_mask_block _ _ mask) as [[]|e]; [|discriminate].
    cbn. intros H. injection H as <- Hout. exists kt, qk. auto.
Qed.

End MaskedAttention.

(* ================================================================== *)
(** * [CrossFrameAttention.construct] *)

Section CrossFrame.
Context {S : Scalar}.
Variable env : Backend.

Lemma getattr_missing (self : Object) (name : string) :
  hasattr self name = false -> getattr self name = Err (AttributeError (cls self) name).
Proof. unfold hasattr, getattr. now destruct (lookup name (attrs self)). Qed.

Lemma CrossFrameAttention_init_facts cs qd cd h dh dr dt efa w self :
  CrossFrameAttention_init env cs qd cd h dh dr dt efa w = Ok self ->
  CrossAttention_facts env "CrossFrameAttention" qd (default cd (inl qd)) h dh dr dt efa w self /\
  getattr self "unet_chunk_size" = Ok (VInt cs).
Proof.
  unfold CrossFrameAttention_init.
  destruct (CrossAttention_init _ _ _ _ _ _ _ _ _ _) as [self0|] eqn:H0; [|discriminate].
  cbn [rbind]. intros H; injection H as <-.
  apply CrossAttention_init_facts in H0. destruct H0.
  split; [constructor; assumption | reflexivity].
Qed.

Lemma Dense_apply_spec3 (l : Linear) (x : Tensor) B N :
  shape x = [B; N; l_in l] ->
  exists y, Dense_apply l x = Ok y /\ shape y = [B; N; l_out l] /\
            dtype y = l_dtype l /\ wf y.
Proof.
  intros Hs. unfold Dense_apply, shape_last. rewrite Hs. cbn [last rbind].
  rewrite Nat.eqb_refl. eexists. split; [reflexivity|].
  repeat split. apply tabulate_wf.
Qed.

Lemma CFA_rearange_in_raises (self : Object) (x : Tensor) :
  hasattr self "reshape" = false -> exists e, CFA_rearange_in self x = Err e.
Proof.
  intros Hno. unfold CFA_rearange_in, attr_int.
  destruct (getattr self "heads") as [hv|]; cbn [rbind]; [|eauto].
  destruct (as_int hv) as [h|]; cbn [rbind]; [|eauto].
  destruct (unpack3 (shape x)) as [[[b n] d]|]; cbn [rbind]; [|eauto].
  destruct (floordiv d h); cbn [rbind]; [|eauto].
  rewrite (@getattr_missing self "reshape" Hno). cbn. eauto.
Qed.

Lemma CFA_rearange_frame_raises (self : Object) (x : Tensor) (f : nat) :
  hasattr self "reshape" = false -> exists e, CFA_rearange_frame self x f = Err e.
Proof.
  intros Hno. unfold CFA_rearange_frame.
  destruct (unpack3 (shape x)) as [[[b n] d]|]; cbn [rbind]; [|eauto].
  destruct (floordiv b f); cbn [rbind]; [|eauto].
  rewrite (@getattr_missing self "reshape" Hno). cbn. eauto.
Qed.

Lemma CFA_share_frames_raises (self : Object) (k v : Tensor) :
  hasattr self "reshape" = false -> exists e, CFA_share_frames self k v = Err e.
Proof.
  intros Hno. unfold CFA_share_frames, attr_int.
  destruct (shape_at k 0); cbn [rbind]; [|eauto].
  destruct (getattr self "unet_chunk_size") as [cv|]; cbn [rbind]; [|eauto].
  destruct (as_int cv) as [cs|]; cbn [rbind]; [|eauto].
  destruct (floordiv a cs) as [vl|]; cbn [rbind]; [|eauto].
  destruct (@CFA_rearange_frame_raises self k vl Hno) as [e ->]. cbn. eauto.
Qed.

(** Without a [reshape] attribute no call gets as far as an attention kernel. *)
Lemma CFA_construct_raises (self : Object) (x : Tensor) (context mask : option Tensor) :
  hasattr self "reshape" = false ->
  exists e, run (CrossFrameAttention_construct env self x context mask) = ([], Err e).
Proof.
  intros Hno. unfold run, CrossFrameAttention_construct, mbind, lift.
  destruct (call_attr self "to_q" x) as [q|]; [|eauto].
  destruct (call_attr self "to_k" _) as [k|]; [|eauto].
  destruct (call_attr self "to_v" _) as [v|]; [|eauto].
  destruct context as [ctx|]; cbn [exists_ negb].
  - destruct (@CFA_rearange_in_raises self q Hno) as [e ->]. eauto.
  - destruct (@CFA_share_frames_raises self k v Hno) as [e ->]. eauto.
Qed.

Lemma CFA_rearange_in_attribute_error (self : Object) (x : Tensor) h b n d :
  hasattr self "reshape" = false -> getattr self "heads" = Ok (VInt h) -> h <> 0 ->
  shape x = [b; n; d] ->
  CFA_rearange_in self x = Err (AttributeError (cls self) "reshape").
Proof.
  intros Hno Hh Hh0 Hs. unfold CFA_rearange_in, attr_int, floordiv.
  rewrite Hh, Hs. cbn [rbind as_int unpack3].
  destruct (Nat.eqb_spec h 0); [contradiction|]. cbn [rbind].
  now rewrite (@getattr_missing self "reshape" Hno).
Qed.

Lemma CFA_share_frames_attribute_error (self : Object) (k v : Tensor) cs b n d :
  hasattr self "reshape" = false -> getattr self "unet_chunk_size" = Ok (VInt cs) ->
  0 < cs <= b -> shape k = [b; n; d] ->
  CFA_share_frames self k v = Err (AttributeError (cls self) "reshape").
Proof.
  intros Hno Hcs Hb Hs. unfold CFA_share_frames, CFA_rearange_frame, attr_int, shape_at, floordiv.
  rewrite Hcs, Hs. cbn [rbind as_int unpack3 nth_error].
  destruct (Nat.eqb_spec cs 0); [lia|]. cbn [rbind].
  destruct (Nat.eqb_spec (b / cs) 0) as [E|_].
  - apply Nat.div_small_iff in E; lia.
  - cbn [rbind]. now rewrite (@getattr_missing self "reshape" Hno).
Qed.

(** C5 (as amended): [CrossFrameAttention.__init__] (through
    [CrossAttention.__init__]) never defines [self.reshape], and every call
    of [construct] raises before any attention kernel is invoked.  For an
    input of shape (B, N, query_dim), the exception is the AttributeError
    for [self.reshape] when a context of shape (B', N', context_dim) is
    given, and also when no context is given, the cell was built with no
    [context_dim] or with one equal to [query_dim], and
    1 <= unet_chunk_size <= B.  When no context is given and the cell was
    built with a [context_dim] other than [query_dim], the key projection
    of [x] raises its shape error first. *)
Theorem C5_cross_frame_attention_raises cs qd cd h dh dr dt efa w self x context mask :
  CrossFrameAttention_init env cs qd cd h dh dr dt efa w = Ok self ->
  hasattr self "reshape" = false /\
  (exists e, run (CrossFrameAttention_construct env self x context mask) = ([], Err e)) /\
  (forall B N,
     shape x = [B; N; qd] ->
     match context with
     | None => default cd (inl qd) = qd /\ 0 < cs <= B
     | Some ctx => exists B' N', shape ctx = [B'; N'; default cd (inl qd)]
     end ->
     run (CrossFrameAttention_construct env self x context mask) =
       ([], Err (AttributeError "CrossFrameAttention" "reshape"))) /\
  (forall B N,
     shape x = [B; N; qd] ->
     context = None ->
     default cd (inl qd) <> qd ->
     run (CrossFrameAttention_construct env self x context mask) =
       ([], Err (ValueError "Dense"))).
Proof.
  intros Hinit. apply CrossFrameAttention_init_facts in Hinit as [F Hcs].
  pose proof (ca_no_reshape F) as Hno.
  split; [exact Hno|]. split; [now apply CFA_construct_raises|].
  split.
  - intros B N Hx Hctx.
    unfold run, CrossFrameAttention_construct, mbind, lift, call_attr.
    rewrite (ca_to_q F), (ca_to_k F), (ca_to_v F). cbn [rbind call_layer apply_layer].
    destruct (@Dense_apply_spec3 (mkLinear qd (dh * h) (w_q w) None dt) x B N Hx)
      as (q & -> & Hsq & _).
    destruct context as [ctx|]; cbn [default exists_ negb].
    + destruct Hctx as (B' & N' & Hc).
      destruct (@Dense_apply_spec3 (mkLinear (default cd (inl qd)) (dh * h) (w_k w) None dt)
                  ctx B' N' Hc) as (k & -> & _).
      destruct (@Dense_apply_spec3 (mkLinear (default cd (inl qd)) (dh * h) (w_v w) None dt)
                  ctx B' N' Hc) as (v & -> & _).
      rewrite (@CFA_rearange_in_attribute_error self q h _ _ _ Hno (ca_heads F) (ca_h F) Hsq).
      now rewrite (ca_cls F).
    + destruct Hctx as [Hcd Hb]. rewrite <- Hcd in Hx.
      destruct (@Dense_apply_spec3 (mkLinear (default cd (inl qd)) (dh * h) (w_k w) None dt)
                  x B N Hx) as (k & -> & Hsk & _).
      destruct (@Dense_apply_spec3 (mkLinear (default cd (inl qd)) (dh * h) (w_v w) None dt)
                  x B N Hx) as (v & -> & _).
      rewrite (@CFA_share_frames_attribute_error self k v cs _ _ _ Hno Hcs Hb Hsk).
      now rewrite (ca_cls F).
  - intros B N Hx -> Hne.
    unfold run, CrossFrameAttention_construct, mbind, lift, call_attr.
    rewrite (ca_to_q F), (ca_to_k F). cbn [rbind call_layer apply_layer default exists_ negb].
    destruct (@Dense_apply_spec3 (mkLinear qd (dh * h) (w_q w) None dt) x B N Hx)
      as (q & -> & _).
    unfold Dense_apply, shape_last. rewrite Hx. cbn [last rbind l_in].
    destruct (Nat.eqb_spec qd (default cd (inl qd))); [congruence | reflexivity].
Qed.

End CrossFrame.

(* ================================================================== *)
(** * [CrossAttention.construct] *)

Section CrossAttentionProps.
Context {S : Scalar}.
Variable env : Backend.

(** C6: [CrossAttention.forward(x)], with the context absent, is the same
    computation as [CrossAttention.forward(x, context=x)]: same events,
    same result or same exception, whatever the cell and the mask. *)
Theorem C6_self_attention_default (self : Object) (x : Tensor) (mask : option Tensor) :
  CrossAttention_construct env self x None mask =
  CrossAttention_construct env self x (Some x) mask.
Proof. reflexivity. Qed.

Lemma apply_layer_dense (l : Linear) (x : Tensor) :
  apply_layer (LDense l) x = Dense_apply l x.
Proof. reflexivity. Qed.

Lemma to_out_apply (l : Linear) (dr : scalar) (x : Tensor) :
  apply_layer (LSequential [LDense l; LDropout dr]) x = Dense_apply l x.
Proof. cbn. now destruct (Dense_apply l x). Qed.

Lemma view_infer_last_split (x : Tensor) B N h d :
  shape x = [B; N; d * h] -> B * N * h <> 0 ->
  view_infer_last x [B; N; h] = Ok (mkTensor (dtype x) [B; N; h; d] (data x)).
Proof.
  intros Hs Hne. unfold view_infer_last. rewrite Hs. cbn [numel fold_right app].
  replace (B * (N * (h * 1))) with (B * N * h) by lia.
  replace (B * (N * (d * h * 1))) with (d * (B * N * h)) by lia.
  destruct (Nat.eqb_spec (B * N * h) 0); [contradiction|].
  rewrite Nat.Div0.mod_mul, Nat.div_mul by assumption. reflexivity.
Qed.

Lemma view_infer_last_merge (x : Tensor) B N h d :
  shape x = [B; N; h; d] -> B * N <> 0 ->
  view_infer_last x [B; N] = Ok (mkTensor (dtype x) [B; N; h * d] (data x)).
Proof.
  intros Hs Hne. unfold view_infer_last. rewrite Hs. cbn [numel fold_right app].
  replace (B * (N * 1)) with (B * N) by lia.
  replace (B * (N * (h * (d * 1)))) with (h * d * (B * N)) by lia.
  destruct (Nat.eqb_spec (B * N) 0); [contradiction|].
  rewrite Nat.Div0.mod_mul, Nat.div_mul by assumption. reflexivity.
Qed.

Lemma transpose_0213_shape (x : Tensor) a b c d :
  shape x = [a; b; c; d] ->
  exists y, transpose x [0; 2; 1; 3] = Ok y /\ shape y = [a; c; b; d] /\
            dtype y = dtype x /\ wf y.
Proof.
  intros Hs. rewrite (@transpose_0213 _ x a b c d Hs). eexists. split; [reflexivity|].
  repeat split. apply tabulate_wf.
Qed.

(** The accelerated path. *)
Lemma CrossAttention_flash_from c qd cd h dh dr dt efa w self x context mask B N Nk l :
  CrossAttention_init env c qd cd h dh dr dt efa w = Ok self ->
  shape x = [B; N; qd] ->
  shape (default context (inl x)) = [B; Nk; default cd (inl qd)] ->
  flash_enabled env efa && (N mod 16 =? 0) && (Nk mod 16 =? 0) && (dh <=? 128) = true ->
  kernel_keeps_shape env -> B * N <> 0 -> B * Nk <> 0 ->
  exists q k v m out,
    CrossAttention_construct env self x context mask l =
      (l ++ [EvFlashAttention q k v m], Ok out) /\
    shape out = shape x /\ dtype out = dtype x /\ wf out.
Proof.
  intros Hinit Hx Hc Hcond Hker HBN HBNk. apply CrossAttention_init_facts in Hinit as F.
  assert (Hh : 0 < h) by (pose proof (ca_h F); lia).
  assert (Hefa : flash_enabled env efa = true).
  { destruct (flash_enabled env efa); [reflexivity | discriminate]. }
  unfold CrossAttention_construct, mbind, lift, call_attr, attr_int, attr_bool, attr_dtype.
  rewrite (ca_heads F), (ca_to_q F), (ca_to_k F), (ca_to_v F), (ca_efa F), (ca_to_out F),
    (ca_flash F), (ca_fa_dtype F Hefa), Hefa.
  cbn [rbind as_int as_bool as_dtype call_layer]. rewrite !apply_layer_dense.
  destruct (@Dense_apply_spec3 _ (mkLinear qd (dh * h) (w_q w) None dt) x B N Hx)
    as (q & -> & Hsq & Hdq & _).
  destruct (@Dense_apply_spec3 _ (mkLinear (default cd (inl qd)) (dh * h) (w_k w) None dt)
              _ B Nk Hc) as (k & -> & Hsk & Hdk & _).
  destruct (@Dense_apply_spec3 _ (mkLinear (default cd (inl qd)) (dh * h) (w_v w) None dt)
              _ B Nk Hc) as (v & -> & Hsv & Hdv & _).
  cbn [l_out l_dtype] in *.
  unfold shape_last. rewrite Hsq, Hsk, Hsv. cbn [unpack3 last rbind].
  rewrite (@floordiv_mul_r dh h Hh). cbn [rbind].
  rewrite Hefa in Hcond. rewrite Hcond.
  rewrite (@view_infer_last_split q B N h dh Hsq) by nia.
  rewrite (@view_infer_last_split k B Nk h dh Hsk) by nia.
  rewrite (@view_infer_last_split v B Nk h dh Hsv) by nia.
  cbn [rbind].
  destruct (@transpose_0213_shape (mkTensor (dtype q) [B; N; h; dh] (data q)) B N h dh eq_refl)
    as (q' & -> & Hsq' & _).
  destruct (@transpose_0213_shape (mkTensor (dtype k) [B; Nk; h; dh] (data k)) B Nk h dh eq_refl)
    as (k' & -> & _).
  destruct (@transpose_0213_shape (mkTensor (dtype v) [B; Nk; h; dh] (data v)) B Nk h dh eq_refl)
    as (v' & -> & _).
  set (m := match mask with
            | Some m0 => Ok m0
            | None => _
            end).
  assert (Hm : exists m0, m = Ok m0) by (destruct mask; subst m; cbn; eauto).
  destruct Hm as [m0 ->].
  unfold call_flash, mbind, emit, lift.
  destruct (Hker dh h (to q' float16) (to k' float16) (to v' float16)
              (Some (to m0 (choose_flash_attention_dtype env)))) as (o1 & -> & Hso1).
  cbn [to shape] in Hso1. rewrite Hsq' in Hso1. rewrite Hso1. cbn [unpack4 rbind].
  destruct (@transpose_0213_shape o1 B h N dh Hso1) as (o2 & -> & Hso2 & _).
  cbn [rbind].
  rewrite (@view_infer_last_merge o2 B N h dh Hso2 HBN).
  rewrite to_out_apply.
  destruct (@Dense_apply_spec3 _ (mkLinear (dh * h) qd (w_out w) (Some (b_out w)) dt)
              (mkTensor (dtype o2) [B; N; h * dh] (data o2)) B N
              ltac:(cbn; now rewrite (Nat.mul_comm h dh)))
    as (o3 & -> & Hso3 & Hdo3 & Hwo3).
  do 5 eexists. split; [reflexivity|]. cbn [to shape dtype]. rewrite Hx. auto.
Qed.

(** The generic path: [Attention.construct] is entered; without a mask the
    call returns a tensor of the shape and element type of [x], with a
    mask it raises inside [Attention.construct]. *)
Lemma CrossAttention_generic_from c qd cd h dh dr dt efa w self x context mask B N Nk l :
  CrossAttention_init env c qd cd h dh dr dt efa w = Ok self ->
  shape x = [B; N; qd] ->
  shape (default context (inl x)) = [B; Nk; default cd (inl qd)] ->
  flash_enabled env efa && (N mod 16 =? 0) && (Nk mod 16 =? 0) && (dh <=? 128) = false ->
  exists q k v,
    match mask with
    | None => exists sim out,
        CrossAttention_construct env self x context None l =
          (l ++ [EvAttention q k v None; EvSoftmax sim], Ok out) /\
        shape out = shape x /\ dtype out = dtype x /\ wf out
    | Some m =>
        CrossAttention_construct env self x context (Some m) l =
          (l ++ [EvAttention q k v (Some m)], Err (AttributeError "Attention" "reshape"))
    end.
Proof.
  intros Hinit Hx Hc Hcond. apply CrossAttention_init_facts in Hinit as F.
  destruct (ca_attention F) as (att & Hatt & Hga).
  assert (Hh : 0 < h) by (pose proof (ca_h F); lia).
  unfold CrossAttention_construct, mbind, lift, call_attr, attr_int, attr_bool.
  rewrite (ca_heads F), (ca_to_q F), (ca_to_k F), (ca_to_v F), (ca_efa F), (ca_to_out F), Hga.
  cbn [rbind as_int as_bool call_layer]. rewrite !apply_layer_dense.
  destruct (@Dense_apply_spec3 _ (mkLinear qd (dh * h) (w_q w) None dt) x B N Hx)
    as (q & -> & Hsq & Hdq & _).
  destruct (@Dense_apply_spec3 _ (mkLinear (default cd (inl qd)) (dh * h) (w_k w) None dt)
              _ B Nk Hc) as (k & -> & Hsk & Hdk & _).
  destruct (@Dense_apply_spec3 _ (mkLinear (default cd (inl qd)) (dh * h) (w_v w) None dt)
              _ B Nk Hc) as (v & -> & Hsv & Hdv & _).
  cbn [l_out l_dtype] in *.
  unfold shape_last. rewrite Hsq, Hsk, Hsv. cbn [unpack3 last rbind].
  rewrite (@floordiv_mul_r dh h Hh). cbn [rbind].
  rewrite Hcond.
  rewrite (Nat.mul_comm dh h) in Hsq, Hsk, Hsv.
  destruct (@_rearange_in_ok _ q B N h dh Hsq Hh) as (q' & -> & Hsq' & Hdq' & _).
  destruct (@_rearange_in_ok _ k B Nk h dh Hsk Hh) as (k' & -> & Hsk' & Hdk' & _).
  destruct (@_rearange_in_ok _ v B Nk h dh Hsv Hh) as (v' & -> & Hsv' & Hdv' & _).
  exists q', k', v'.
  unfold call_attention, mbind, lift.
  apply Attention_init_inv in Hatt as Hai. destruct Hai as [_ Hai].
  assert (Hobj : as_object (of_object att) = Ok att) by (subst att; reflexivity).
  assert (Hcls : cls att = "Attention"%string) by (subst att; reflexivity).
  rewrite Hobj, Hcls. cbn [String.eqb Ascii.eqb Bool.eqb]. clear Hai.
  destruct mask as [m|].
  - destruct (@transpose_021_spec _ k' (B * h) Nk dh Hsk') as (kt & Hkt & Hskt & _).
    destruct (@matmul_spec _ q' kt (B * h) N dh Nk Hsq' Hskt) as (qk & Hqk & _).
    now rewrite (@Attention_construct_masked_from _ dh att q' k' v' m kt qk l Hatt Hkt Hqk).
  - destruct (@Attention_construct_unmasked_shape _ dh att q' k' v' (B * h) N Nk l
                Hatt Hsq' Hsk' Hsv') as (sim & o1 & -> & Hso1 & Hwo1).
    destruct (@_rearange_out_ok _ o1 B N h dh Hso1 Hh) as (o2 & -> & Hso2 & Hdo2 & Hwo2 & _).
    rewrite to_out_apply.
    rewrite (Nat.mul_comm h dh) in Hso2.
    destruct (@Dense_apply_spec3 _ (mkLinear (dh * h) qd (w_out w) (Some (b_out w)) dt)
                o2 B N Hso2) as (o3 & -> & Hso3 & Hdo3 & Hwo3).
    exists sim, (to o3 (dtype x)).
    split; [reflexivity|]. cbn [to shape dtype]. rewrite Hx. auto.
Qed.

End CrossAttentionProps.

(* ================================================================== *)
(** * [FeedForward] and [BasicTransformerBlock] *)

Section BlockProps.
Context {S : Scalar}.
Variable env : Backend.

Lemma as_object_of_object (o : Object) : as_object (of_object o) = Ok o.
Proof. now destruct o. Qed.

(** [CrossAttention.construct] without mask returns, on either path. *)
Lemma CrossAttention_returns_from c qd cd h dh dr dt efa w self x context B N l :
  CrossAttention_init env c qd cd h dh dr dt efa w = Ok self ->
  shape x = [B; N; qd] ->
  context_fits context B qd (default cd (inl qd)) ->
  paths_usable env efa context B N ->
  exists l' out,
    CrossAttention_construct env self x context None l = (l ++ l', Ok out) /\
    shape out = shape x /\ dtype out = dtype x /\ wf out.
Proof.
  intros Hinit Hx Hfit Huse.
  assert (Hc : exists Nk, shape (default context (inl x)) = [B; Nk; default cd (inl qd)] /\
                          (B * N <> 0 -> context_nonempty context -> B * Nk <> 0)).
  { destruct context as [ctx|]; cbn in *.
    - destruct Hfit as [Nk Hs]. exists Nk. split; [exact Hs|].
      intros _ Hne. rewrite Hs in Hne. cbn in Hne. nia.
    - exists N. rewrite Hfit. auto. }
  destruct Hc as (Nk & Hc & Hne).
  destruct (flash_enabled env efa && (N mod 16 =? 0) && (Nk mod 16 =? 0) && (dh <=? 128))
    eqn:Hcond.
  - destruct Huse as [Hoff | (Hker & HBN & Hctx)].
    + rewrite Hoff in Hcond. discriminate.
    + destruct (@CrossAttention_flash_from _ env c qd cd h dh dr dt efa w self x context None
                  B N Nk l Hinit Hx Hc Hcond Hker HBN (Hne HBN Hctx))
        as (q & k & v & m & out & Hrun & Hs).
      eauto.
  - destruct (@CrossAttention_generic_from _ env c qd cd h dh dr dt efa w self x context None
                B N Nk l Hinit Hx Hc Hcond) as (q & k & v & sim & out & Hrun & Hs).
    eauto.
Qed.

Lemma shape_eqb_refl (s : list nat) : shape_eqb s s = true.
Proof. induction s; cbn; [reflexivity|]. now rewrite Nat.eqb_refl. Qed.

Lemma tadd_shape (x y : Tensor) :
  shape x = shape y -> exists z, tadd x y = Ok z /\ shape z = shape x.
Proof.
  intros H. unfold tadd. rewrite H, shape_eqb_refl. eexists. split; reflexivity.
Qed.

Lemma LayerNorm_apply_shape (l : Norm) (x : Tensor) B N :
  shape x = [B; N; n_channels l] ->
  exists y, LayerNorm_apply l x = Ok y /\ shape y = shape x.
Proof.
  intros Hs. unfold LayerNorm_apply, shape_last. rewrite Hs. cbn [last rbind].
  rewrite Nat.eqb_refl. eexists. split; reflexivity.
Qed.

Lemma GEGLU_construct_shape (proj : Linear) (x : Tensor) B N d :
  shape x = [B; N; l_in proj] -> l_out proj = d * 2 ->
  exists y, GEGLU_construct proj x = Ok y /\ shape y = [B; N; d].
Proof.
  intros Hs Ho. unfold GEGLU_construct.
  destruct (@Dense_apply_spec3 _ proj x B N Hs) as (y & -> & Hsy & _).
  cbn [rbind]. unfold shape_last. rewrite Hsy, Ho. cbn [last rbind].
  rewrite Nat.Div0.mod_mul, Nat.div_mul by lia. cbn.
  eexists. split; reflexivity.
Qed.

Lemma FeedForward_returns dim glu dr dt w_in w_out ff x B N :
  FeedForward_init dim None 4 glu dr dt w_in w_out = Ok ff ->
  shape x = [B; N; dim] ->
  exists y, call_ff (of_object ff) x = Ok y /\ shape y = [B; N; dim].
Proof.
  unfold FeedForward_init, GEGLU_init. intros Hinit Hx.
  unfold call_ff. rewrite as_object_of_object. cbn [rbind].
  destruct glu; cbn [negb] in Hinit.
  - destruct (Linear_init dim (dim * 4 * 2) true _ _) as [proj|] eqn:Hp; [|discriminate].
    destruct (Linear_init (dim * 4) _ true _ _) as [lo|] eqn:Ho; [|discriminate].
    cbn [rbind default] in Hinit. injection Hinit as <-.
    apply Linear_init_inv in Hp as (_ & _ & ->). apply Linear_init_inv in Ho as (_ & _ & ->).
    cbn [cls setattr new_object String.eqb Ascii.eqb Bool.eqb].
    unfold FeedForward_construct, call_attr. cbn [getattr setattr new_object attrs lookup
      String.eqb Ascii.eqb Bool.eqb rbind call_layer apply_layer].
    unfold to_float, default. cbn [l_in l_out l_weight l_bias].
    destruct (@GEGLU_construct_shape
                (mkLinear dim (dim * 4 * 2) (lw_weight w_in) (Some (lw_bias w_in)) dt)
                x B N (dim * 4) Hx eq_refl) as (y & -> & Hsy).
    cbn [rbind].
    destruct (@Dense_apply_spec3 _
                (mkLinear (dim * 4) dim (lw_weight w_out) (Some (lw_bias w_out)) dt)
                y B N Hsy) as (z & -> & Hsz & _).
    cbn [rbind]. eauto.
  - cbn [rbind] in Hinit. discriminate.
Qed.
Lemma BasicTransformerBlock_init_inv dim nh dhd dr cd gff ck dt efa cs w self :
  BasicTransformerBlock_init env dim nh dhd dr cd gff ck dt efa false cs w = Ok self ->
  exists a1 ff a2,
    CrossAttention_init env "CrossAttention" dim None nh dhd dr dt efa (bw_attn1 w) = Ok a1 /\
    FeedForward_init dim None 4 gff dr dt (bw_ff_in w) (bw_ff_out w) = Ok ff /\
    CrossAttention_init env "CrossAttention" dim cd nh dhd dr dt efa (bw_attn2 w) = Ok a2 /\
    cls self = "BasicTransformerBlock"%string /\
    getattr self "attn1" = Ok (of_object a1) /\
    getattr self "ff" = Ok (of_object ff) /\
    getattr self "attn2" = Ok (of_object a2) /\
    getattr self "norm1" = Ok (VLayer (LayerNorm_init dim dt (bw_norm1 w))) /\
    getattr self "norm2" = Ok (VLayer (LayerNorm_init dim dt (bw_norm2 w))) /\
    getattr self "norm3" = Ok (VLayer (LayerNorm_init dim dt (bw_norm3 w))).
Proof.
  unfold BasicTransformerBlock_init.
  destruct (CrossAttention_init env "CrossAttention" dim None _ _ _ _ _ _) as [a1|] eqn:H1;
    [|discriminate].
  cbn [rbind].
  destruct (FeedForward_init _ _ _ _ _ _ _ _) as [ff|] eqn:H2; [|discriminate].
  cbn [rbind].
  destruct (CrossAttention_init env "CrossAttention" dim cd _ _ _ _ _ _) as [a2|] eqn:H3;
    [|discriminate].
  cbn [rbind]. intros H; injection H as <-.
  exists a1, ff, a2. repeat split; reflexivity.
Qed.

Lemma call_attn_cross (a : Object) x context mask l :
  cls a = "CrossAttention"%string ->
  call_attn env (of_object a) x context mask l = CrossAttention_construct env a x context mask l.
Proof.
  intros Hc. unfold call_attn, mbind, lift. rewrite as_object_of_object, Hc. reflexivity.
Qed.

Lemma BasicTransformerBlock_returns_from dim nh dhd dr cd gff ck dt efa cs w self
    x context B N l :
  BasicTransformerBlock_init env dim nh dhd dr cd gff ck dt efa false cs w = Ok self ->
  shape x = [B; N; dim] ->
  context_fits context B dim (default cd (inl dim)) ->
  paths_usable env efa context B N ->
  exists l' out,
    BasicTransformerBlock_construct env self x context l = (l ++ l', Ok out) /\
    shape out = [B; N; dim].
Proof.
  intros Hinit Hx Hfit Huse.
  apply BasicTransformerBlock_init_inv in Hinit
    as (a1 & ff & a2 & Ha1 & Hff & Ha2 & Hcls & G1 & Gf & G2 & N1 & N2 & N3).
  assert (Huse1 : paths_usable env efa None B N).
  { destruct Huse as [Hoff | (Hk & HBN & _)]; [left; exact Hoff|].
    right. repeat split; assumption. }
  assert (C1 : cls a1 = "CrossAttention"%string).
  { pose proof Ha1 as F. apply CrossAttention_init_facts in F. exact (ca_cls F). }
  assert (C2 : cls a2 = "CrossAttention"%string).
  { pose proof Ha2 as F. apply CrossAttention_init_facts in F. exact (ca_cls F). }
  unfold BasicTransformerBlock_construct, mbind, lift, call_attr.
  rewrite G1, N1. cbn [rbind call_layer apply_layer LayerNorm_init].
  destruct (@LayerNorm_apply_shape (mkNorm dim 5 (nw_gamma (bw_norm1 w)) (nw_beta (bw_norm1 w)) dt)
              x B N Hx) as (n1 & -> & Hn1).
  rewrite Hx in Hn1.
  rewrite (@call_attn_cross a1 n1 None None l C1).
  destruct (@CrossAttention_returns_from "CrossAttention" dim None nh dhd dr dt efa
              (bw_attn1 w) a1 n1 None B N l Ha1 Hn1 eq_refl Huse1)
    as (l1 & o1 & -> & Hso1 & _).
  rewrite Hn1 in Hso1.
  destruct (@tadd_shape o1 x ltac:(congruence)) as (x1 & -> & Hx1). rewrite Hso1 in Hx1.
  rewrite G2, N2. cbn [rbind call_layer apply_layer LayerNorm_init].
  destruct (@LayerNorm_apply_shape (mkNorm dim 5 (nw_gamma (bw_norm2 w)) (nw_beta (bw_norm2 w)) dt)
              x1 B N Hx1) as (n2 & -> & Hn2).
  rewrite Hx1 in Hn2.
  rewrite (@call_attn_cross a2 n2 context None (l ++ l1) C2).
  destruct (@CrossAttention_returns_from "CrossAttention" dim cd nh dhd dr dt efa
              (bw_attn2 w) a2 n2 context B N (l ++ l1) Ha2 Hn2 Hfit Huse)
    as (l2 & o2 & -> & Hso2 & _).
  rewrite Hn2 in Hso2.
  destruct (@tadd_shape o2 x1 ltac:(congruence)) as (x2 & -> & Hx2). rewrite Hso2 in Hx2.
  rewrite Gf, N3. cbn [rbind call_layer apply_layer LayerNorm_init].
  destruct (@LayerNorm_apply_shape (mkNorm dim 5 (nw_gamma (bw_norm3 w)) (nw_beta (bw_norm3 w)) dt)
              x2 B N Hx2) as (n3 & -> & Hn3).
  rewrite Hx2 in Hn3.
  destruct (@FeedForward_returns dim gff dr dt (bw_ff_in w) (bw_ff_out w) ff n3 B N Hff Hn3)
    as (f & -> & Hsf).
  destruct (@tadd_shape f x2 ltac:(congruence)) as (x3 & -> & Hx3). rewrite Hsf in Hx3.
  exists (l1 ++ l2), x3. split; [now rewrite app_assoc | exact Hx3].
Qed.

End BlockProps.

(* ================================================================== *)
(** * Dispatch, feed-forward and transformer block *)

Section MoreBlockProps.
Context {S : Scalar}.
Variable env : Backend.

(** X5: [GEGLU.construct] returns, entry by entry, the first half of the
    projection times the GELU of the second half; the result has the
    shape (B, N, dim_out) and the element type of the projection. *)
Theorem GEGLU_construct_entries (proj : Linear) (x p : Tensor) B N d :
  shape x = [B; N; l_in proj] -> l_out proj = d * 2 ->
  Dense_apply proj x = Ok p ->
  exists y, GEGLU_construct proj x = Ok y /\ shape y = [B; N; d] /\
            dtype y = l_dtype proj /\
            forall b n j, b < B -> n < N -> j < d ->
              tget y [b; n; j] = fmul (tget p [b; n; j]) (fgelu (tget p [b; n; j + d])).
Proof.
  intros Hs Ho Hp. unfold GEGLU_construct.
  destruct (@Dense_apply_spec3 _ proj x B N Hs) as (y & Hy & Hsy & Hdy & _).
  rewrite Hp in Hy. injection Hy as <-. rewrite Hp.
  cbn [rbind]. unfold shape_last. rewrite Hsy, Ho. cbn [last rbind].
  rewrite Nat.Div0.mod_mul, Nat.div_mul by lia. cbn [Nat.eqb].
  eexists. split; [reflexivity|]. split; [reflexivity|]. split; [exact Hdy|].
  intros b n j Hb Hn Hj.
  rewrite tget_tabulate by (repeat constructor; assumption).
  reflexivity.
Qed.

(** X7: a [CrossAttention] built with a [context_dim] other than its
    [query_dim] cannot be called without a context: the key projection of
    [x] raises before any attention. *)
Theorem CrossAttention_context_dim_mismatch c qd cdim h dh dr dt efa w self x mask B N :
  CrossAttention_init env c qd (Some cdim) h dh dr dt efa w = Ok self ->
  cdim <> qd ->
  shape x = [B; N; qd] ->
  run (CrossAttention_construct env self x None mask) = ([], Err (ValueError "Dense")).
Proof.
  intros Hinit Hne Hx. apply CrossAttention_init_facts in Hinit as F.
  unfold run, CrossAttention_construct, mbind, lift, call_attr, attr_int.
  rewrite (ca_heads F), (ca_to_q F), (ca_to_k F).
  cbn [rbind as_int call_layer apply_layer default].
  destruct (@Dense_apply_spec3 _ (mkLinear qd (dh * h) (w_q w) None dt) x B N Hx)
    as (q & -> & _).
  unfold Dense_apply, shape_last. rewrite Hx. cbn [last rbind l_in].
  destruct (Nat.eqb_spec qd cdim); [congruence | reflexivity].
Qed.

(** X6: the dispatch of [CrossAttention.construct] on a well-shaped input.
    The accelerated kernel is called exactly when the enable flag resolved
    to true at construction, both sequence lengths are multiples of 16 and
    the head dimension is at most 128; otherwise [Attention.construct] is
    entered and the kernel is not.  On the accelerated path, and on the
    generic path without mask, the result has the shape and element type
    of [x]; on the generic path with a mask the call raises. *)
Theorem CrossAttention_dispatch c qd cd h dh dr dt efa w self x context mask B N Nk :
  CrossAttention_init env c qd cd h dh dr dt efa w = Ok self ->
  shape x = [B; N; qd] ->
  shape (default context (inl x)) = [B; Nk; default cd (inl qd)] ->
  let fast := flash_enabled env efa && (N mod 16 =? 0) && (Nk mod 16 =? 0) && (dh <=? 128) in
  (fast = true -> kernel_keeps_shape env /\ B * N <> 0 /\ B * Nk <> 0) ->
  exists log r,
    run (CrossAttention_construct env self x context mask) = (log, r) /\
    existsb is_flash log = fast /\
    existsb is_attention log = negb fast /\
    (fast = true \/ mask = None ->
       exists out, r = Ok out /\ shape out = shape x /\ dtype out = dtype x) /\
    (fast = false -> mask <> None -> r = Err (AttributeError "Attention" "reshape")).
Proof.
  intros Hinit Hx Hc fast Hfast. unfold run.
  destruct fast eqn:Hcond; subst fast.
  - destruct (Hfast eq_refl) as (Hker & HBN & HBNk).
    destruct (@CrossAttention_flash_from _ env c qd cd h dh dr dt efa w self x context mask
                B N Nk [] Hinit Hx Hc Hcond Hker HBN HBNk)
      as (q & k & v & m & out & -> & Hs & Hd & _).
    do 2 eexists. split; [reflexivity|]. cbn. repeat split; try discriminate.
    intros _. eauto.
  - destruct (@CrossAttention_generic_from _ env c qd cd h dh dr dt efa w self x context mask
                B N Nk [] Hinit Hx Hc Hcond) as (q & k & v & Hm).
    destruct mask as [m|].
    + rewrite Hm. do 2 eexists. split; [reflexivity|]. cbn. repeat split; try discriminate.
      intros [H|H]; discriminate.
    + destruct Hm as (sim & out & -> & Hs & Hd & _).
      do 2 eexists. split; [reflexivity|]. cbn. repeat split; try discriminate.
      * intros _. eauto.
      * intros _ H. congruence.
Qed.
Lemma CFA_construct_attribute_error cs qd cd h dh dr dt efa w self x context mask B N :
  CrossFrameAttention_init env cs qd cd h dh dr dt efa w = Ok self ->
  shape x = [B; N; qd] ->
  match context with
  | None => default cd (inl qd) = qd /\ 0 < cs <= B
  | Some ctx => exists B' N', shape ctx = [B'; N'; default cd (inl qd)]
  end ->
  run (CrossFrameAttention_construct env self x context mask) =
    ([], Err (AttributeError "CrossFrameAttention" "reshape")).
Proof.
  intros Hinit Hx Hctx. apply CrossFrameAttention_init_facts in Hinit as [F Hcs].
  pose proof (ca_no_reshape F) as Hno.
  unfold run, CrossFrameAttention_construct, mbind, lift, call_attr.
  rewrite (ca_to_q F), (ca_to_k F), (ca_to_v F). cbn [rbind call_layer apply_layer].
  destruct (@Dense_apply_spec3 _ (mkLinear qd (dh * h) (w_q w) None dt) x B N Hx)
    as (q & -> & Hsq & _).
  destruct context as [ctx|]; cbn [default exists_ negb].
  - destruct Hctx as (B' & N' & Hc).
    destruct (@Dense_apply_spec3 _ (mkLinear (default cd (inl qd)) (dh * h) (w_k w) None dt)
                ctx B' N' Hc) as (k & -> & _).
    destruct (@Dense_apply_spec3 _ (mkLinear (default cd (inl qd)) (dh * h) (w_v w) None dt)
                ctx B' N' Hc) as (v & -> & _).
    rewrite (@CFA_rearange_in_attribute_error _ self q h _ _ _ Hno (ca_heads F) (ca_h F) Hsq).
    now rewrite (ca_cls F).
  - destruct Hctx as [Hcd Hb]. rewrite <- Hcd in Hx.
    destruct (@Dense_apply_spec3 _ (mkLinear (default cd (inl qd)) (dh * h) (w_k w) None dt)
                x B N Hx) as (k & -> & Hsk & _).
    destruct (@Dense_apply_spec3 _ (mkLinear (default cd (inl qd)) (dh * h) (w_v w) None dt)
                x B N Hx) as (v & -> & _).
    rewrite (@CFA_share_frames_attribute_error _ self k v cs _ _ _ Hno Hcs Hb Hsk).
    now rewrite (ca_cls F).
Qed.

Lemma call_attn_cross_frame (a : Object) x context mask l :
  cls a = "CrossFrameAttention"%string ->
  call_attn env (of_object a) x context mask l =
  CrossFrameAttention_construct env a x context mask l.
Proof.
  intros Hc. unfold call_attn, mbind, lift. rewrite as_object_of_object, Hc. reflexivity.
Qed.

(** X3: a [BasicTransformerBlock] built with [cross_frame_attention=True]
    never returns and never reaches an attention kernel: its first
    attention raises.  For x of shape (B, N, dim) with
    1 <= unet_chunk_size <= B the exception is the AttributeError for
    [self.reshape] of [CrossFrameAttention]. *)
Theorem BasicTransformerBlock_cross_frame_raises
    dim nh dhd dr cd gff ck dt efa cs w self x context :
  BasicTransformerBlock_init env dim nh dhd dr cd gff ck dt efa true cs w = Ok self ->
  (exists e, run (BasicTransformerBlock_construct env self x context) = ([], Err e)) /\
  (forall B N, shape x = [B; N; dim] -> 0 < cs <= B ->
     run (BasicTransformerBlock_construct env self x context) =
       ([], Err (AttributeError "CrossFrameAttention" "reshape"))).
Proof.
  unfold BasicTransformerBlock_init. intros Hinit.
  destruct (CrossFrameAttention_init env cs dim None _ _ _ _ _ _) as [a1|] eqn:H1;
    [|discriminate].
  cbn [rbind] in Hinit.
  destruct (FeedForward_init _ _ _ _ _ _ _ _) as [ff|] eqn:H2; [|discriminate].
  cbn [rbind] in Hinit.
  destruct (CrossFrameAttention_init env cs dim cd _ _ _ _ _ _) as [a2|] eqn:H3;
    [|discriminate].
  cbn [rbind] in Hinit. injection Hinit as <-.
  pose proof H1 as F1. apply CrossFrameAttention_init_facts in F1 as [F1 Hcs].
  unfold run, BasicTransformerBlock_construct, mbind, lift, call_attr.
  cbn [getattr setattr new_object attrs lookup String.eqb Ascii.eqb Bool.eqb rbind
       call_layer apply_layer LayerNorm_init].
  split.
  - destruct (LayerNorm_apply _ x) as [n|e]; [|eauto].
    rewrite (@call_attn_cross_frame a1 n None None [] (ca_cls F1)).
    destruct (@CFA_construct_raises _ env a1 n None None (ca_no_reshape F1)) as [e He].
    unfold run in He. rewrite He. eauto.
  - intros B N Hx Hb.
    destruct (@LayerNorm_apply_shape _
                (mkNorm dim 5 (nw_gamma (bw_norm1 w)) (nw_beta (bw_norm1 w)) dt)
                x B N Hx) as (n & -> & Hn).
    rewrite Hx in Hn.
    rewrite (@call_attn_cross_frame a1 n None None [] (ca_cls F1)).
    pose proof (@CFA_construct_attribute_error cs dim None nh dhd dr dt efa (bw_attn1 w) a1
                  n None None B N H1 Hn (conj eq_refl Hb)) as He.
    unfold run in He. rewrite He. reflexivity.
Qed.


End MoreBlockProps.

(* ================================================================== *)
(** * [zero_module] and [SpatialTransformer] *)

Section SpatialProps.
Context {S : Scalar}.
Variable env : Backend.

Lemma init_blocks_inv (mk : nat -> result Object) (ds : list nat) :
  forall bs, init_blocks mk ds = Ok bs ->
  Forall (fun v => exists d b, mk d = Ok b /\ v = of_object b) bs.
Proof.
  induction ds as [|d ds IH]; cbn; intros bs H.
  - injection H as <-. constructor.
  - destruct (mk d) as [b|] eqn:Hb; [|discriminate]. cbn [rbind] in H.
    destruct (init_blocks mk ds) as [bs'|]; [|discriminate]. cbn [rbind] in H.
    injection H as <-. constructor; [eauto | now apply IH].
Qed.

Lemma run_blocks_returns_from dim nh dhd dr cd gff ck dt efa cs (bw : nat -> BlockWeights)
    (bs : list PyVal) context B N :
  Forall (fun v => exists d b,
            BasicTransformerBlock_init env dim nh dhd dr cd gff ck dt efa false cs (bw d) = Ok b
            /\ v = of_object b) bs ->
  context_fits context B dim (default cd (inl dim)) ->
  paths_usable env efa context B N ->
  forall x l, shape x = [B; N; dim] ->
  exists l' out, run_blocks env bs x context l = (l ++ l', Ok out) /\ shape out = [B; N; dim].
Proof.
  intros Hbs Hfit Huse. induction Hbs as [|v bs (d & b & Hb & ->) _ IH]; intros x l Hx.
  - exists [], x. cbn. rewrite app_nil_r. auto.
  - cbn [run_blocks]. unfold call_block, mbind, lift. rewrite as_object_of_object.
    pose proof Hb as Hinv. apply BasicTransformerBlock_init_inv in Hinv
      as (ia1 & iff & ia2 & _ & _ & _ & Hcls & _).
    cbv beta iota. rewrite Hcls. cbn [String.eqb Ascii.eqb Bool.eqb].
    destruct (@BasicTransformerBlock_returns_from _ env dim nh dhd dr cd gff ck dt efa cs (bw d)
                b x context B N l Hb Hx Hfit Huse) as (l1 & x1 & -> & Hx1).
    destruct (IH x1 (l ++ l1) Hx1) as (l2 & out & -> & Hout).
    exists (l1 ++ l2), out. split; [now rewrite app_assoc | exact Hout].
Qed.

Lemma GroupNorm_apply_shape (g : nat) (l : Norm) (x : Tensor) b h w :
  shape x = [b; n_channels l; h; w] ->
  exists y, GroupNorm_apply g l x = Ok y /\ shape y = shape x.
Proof.
  intros Hs. unfold GroupNorm_apply. rewrite Hs. cbn [unpack4 rbind].
  rewrite Nat.eqb_refl. eexists. split; reflexivity.
Qed.

Lemma Conv1x1_apply_shape (l : Linear) (x : Tensor) b h w :
  shape x = [b; l_in l; h; w] ->
  exists y, Conv1x1_apply l x = Ok y /\ shape y = [b; l_out l; h; w] /\ wf y.
Proof.
  intros Hs. unfold Conv1x1_apply. rewrite Hs. cbn [unpack4 rbind].
  rewrite Nat.eqb_refl. eexists. split; [reflexivity|]. split; [reflexivity|].
  apply tabulate_wf.
Qed.

Lemma transpose_0312_shape (x : Tensor) a b c d :
  shape x = [a; b; c; d] ->
  exists y, transpose x [0; 3; 1; 2] = Ok y /\ shape y = [a; d; b; c] /\
            dtype y = dtype x /\ wf y /\ (all_zero x -> all_zero y).
Proof.
  intros Hs. unfold transpose. rewrite Hs. cbn [length is_perm].
  eexists. split; [reflexivity|]. split; [reflexivity|]. split; [reflexivity|].
  split; [apply tabulate_wf|].
  intros Hz. unfold all_zero, tabulate. cbn [data].
  apply Forall_map, Forall_forall. intros i _. unfold tget.
  destruct (nth_in_or_default (ravel (shape x) (source_index [0; 3; 1; 2]
              (unravel (permute_shape [a; b; c; d] [0; 3; 1; 2]) i))) (data x) f0) as [Hin | ->];
    [|reflexivity].
  unfold all_zero in Hz. rewrite Forall_forall in Hz. now apply Hz.
Qed.

(** Sums and products with zeros. *)
Lemma fsum_zeros (l : list scalar) :
  fadd f0 f0 = f0 -> Forall (fun a => a = f0) l -> fsum l = f0.
Proof.
  intros H0 Hl. unfold fsum.
  induction Hl as [|a l -> _ IH]; cbn; [reflexivity|]. now rewrite H0.
Qed.

Lemma nth_zeros (l : list scalar) (i : nat) : nth i (map (fun _ => f0) l) f0 = f0.
Proof.
  destruct (nth_in_or_default i (map (fun _ : scalar => f0) l) f0) as [Hin | ->];
    [|reflexivity].
  apply in_map_iff in Hin as (a & Ha & _). now rewrite <- Ha.
Qed.

Lemma zeroed_entry (l l' : Linear) (o : nat) (xs : nat -> scalar) :
  (forall a, fmul a f0 = f0) -> fadd f0 f0 = f0 ->
  zero_linear l = Ok l' ->
  with_bias l' o
    (fsum (map (fun ci => fmul (xs ci) (nth (o * l_in l' + ci) (l_weight l') f0))
               (seq 0 (l_in l')))) = f0.
Proof.
  intros Hmul Hadd Hz. unfold zero_linear in Hz.
  destruct (l_bias l) as [b|]; [|discriminate]. injection Hz as <-.
  unfold with_bias. cbn [l_bias l_weight l_in].
  rewrite nth_zeros, fsum_zeros; [exact Hadd | exact Hadd |].
  apply Forall_map, Forall_forall. intros ci _. now rewrite nth_zeros.
Qed.

Lemma zero_linear_fields (l l' : Linear) :
  zero_linear l = Ok l' -> l_in l' = l_in l /\ l_out l' = l_out l /\ l_dtype l' = l_dtype l.
Proof.
  unfold zero_linear. destruct (l_bias l); [|discriminate].
  intros H; injection H as <-. auto.
Qed.

Lemma Conv1x1_zeroed (l l' : Linear) (x : Tensor) b h w :
  (forall a, fmul a f0 = f0) -> fadd f0 f0 = f0 ->
  zero_linear l = Ok l' ->
  shape x = [b; l_in l; h; w] ->
  exists y, Conv1x1_apply l' x = Ok y /\ shape y = [b; l_out l; h; w] /\
            dtype y = l_dtype l /\ wf y /\ all_zero y.
Proof.
  intros Hmul Hadd Hz Hs.
  destruct (@zero_linear_fields l l' Hz) as (Hi & Ho & Hd).
  unfold Conv1x1_apply. rewrite Hs, Hi. cbn [unpack4 rbind]. rewrite Nat.eqb_refl.
  eexists. split; [reflexivity|]. rewrite Ho. split; [reflexivity|].
  split; [exact Hd|]. split; [apply tabulate_wf|].
  unfold all_zero, tabulate. cbn [data]. apply Forall_map, Forall_forall. intros i _.
  rewrite <- Hi.
  apply (@zeroed_entry l l' _ (fun ci => tget x [_; ci; _; _]) Hmul Hadd Hz).
Qed.

Lemma Dense_zeroed (l l' : Linear) (x : Tensor) B N :
  (forall a, fmul a f0 = f0) -> fadd f0 f0 = f0 ->
  zero_linear l = Ok l' ->
  shape x = [B; N; l_in l] ->
  exists y, Dense_apply l' x = Ok y /\ shape y = [B; N; l_out l] /\
            dtype y = l_dtype l /\ wf y /\ all_zero y.
Proof.
  intros Hmul Hadd Hz Hs.
  destruct (@zero_linear_fields l l' Hz) as (Hi & Ho & Hd).
  unfold Dense_apply, shape_last. rewrite Hs, Hi. cbn [last rbind]. rewrite Nat.eqb_refl.
  eexists. split; [reflexivity|]. rewrite Ho. split; [reflexivity|].
  split; [exact Hd|]. split; [apply tabulate_wf|].
  unfold all_zero, tabulate. cbn [data]. apply Forall_map, Forall_forall. intros i _.
  rewrite <- Hi.
  apply (@zeroed_entry l l' _ (fun ci => tget x (set_last _ ci)) Hmul Hadd Hz).
Qed.

Lemma tadd_zero_l (z x : Tensor) :
  (forall a, fadd f0 a = a) ->
  all_zero z -> wf z -> wf x -> shape z = shape x ->
  exists out, tadd z x = Ok out /\ shape out = shape x /\ data out = data x /\
              dtype out = promote (dtype z) (dtype x).
Proof.
  intros Hadd Hz Hwz Hwx Hs. unfold tadd. rewrite Hs, shape_eqb_refl.
  eexists. split; [reflexivity|]. repeat split. cbn [data].
  assert (Hlen : length (data z) = length (data x)) by (unfold wf in *; congruence).
  unfold all_zero in Hz. revert Hz Hlen. generalize (data x) as lx. generalize (data z) as lz.
  induction lz as [|a lz IH]; intros [|b lx] Hz Hlen; cbn in *; try discriminate; [reflexivity|].
  inversion Hz; subst. rewrite Hadd. f_equal. apply IH; [assumption | lia].
Qed.
Lemma SpatialTransformer_init_inv in_channels n_heads d_head depth dr cd ck ul dt efa cfa cs w self :
  SpatialTransformer_init env in_channels n_heads d_head depth dr cd ck ul dt efa cfa cs w
    = Ok self ->
  let inner := n_heads * d_head in
  exists blocks po,
    in_channels mod 32 = 0 /\
    Forall (fun v => exists d b,
              BasicTransformerBlock_init env inner n_heads d_head dr cd true ck dt efa cfa cs
                (sw_blocks w d) = Ok b /\ v = of_object b) blocks /\
    zero_linear (mkLinear (if ul then in_channels else inner) (if ul then inner else in_channels)
                   (lw_weight (sw_proj_out w)) (Some (lw_bias (sw_proj_out w))) dt) = Ok po /\
    getattr self "norm" =
      Ok (VLayer (LGroupNorm 32 (mkNorm in_channels 6 (nw_gamma (sw_norm w))
                                   (nw_beta (sw_norm w)) float32))) /\
    getattr self "proj_in" =
      Ok (VLayer ((if ul then LDense else LConv2d)
                    (mkLinear in_channels inner (lw_weight (sw_proj_in w))
                       (Some (lw_bias (sw_proj_in w))) dt))) /\
    getattr self "transformer_blocks" = Ok (VList blocks) /\
    getattr self "proj_out" = Ok (VLayer ((if ul then LDense else LConv2d) po)) /\
    getattr self "use_linear" = Ok (VBool ul) /\
    getattr self "reshape" = Ok (VOp OpReshape) /\
    getattr self "transpose" = Ok (VOp OpTranspose).
Proof.
  unfold SpatialTransformer_init, Normalize. intros H.
  destruct (Nat.eqb_spec (in_channels mod 32) 0) as [Hm|]; [|discriminate].
  cbn [rbind] in H.
  destruct ul; cbn [negb] in H.
  - destruct (Linear_init in_channels (n_heads * d_head) true _ _) as [pin|] eqn:Hpin;
      [|discriminate].
    cbn [rbind] in H.
    destruct (init_blocks _ _) as [blocks|] eqn:Hb; [|discriminate]. cbn [rbind] in H.
    apply Linear_init_inv in Hpin as (_ & _ & ->).
    destruct (Linear_init in_channels (n_heads * d_head) true (lw_weight (sw_proj_out w)) _)
      as [po0|] eqn:Hpo; [|discriminate].
    cbn [rbind zero_module] in H.
    destruct (zero_linear (to_float po0 dt)) as [po|] eqn:Hz; [|discriminate].
    cbn [rbind] in H. injection H as <-.
    apply Linear_init_inv in Hpo as (_ & _ & ->).
    exists blocks, po. split; [exact Hm|]. split; [exact (@init_blocks_inv _ _ _ Hb)|].
    split; [exact Hz|]. repeat split; reflexivity.
  - destruct (Linear_init in_channels (n_heads * d_head) true _ _) as [pin|] eqn:Hpin;
      [|discriminate].
    cbn [rbind] in H.
    destruct (init_blocks _ _) as [blocks|] eqn:Hb; [|discriminate]. cbn [rbind] in H.
    apply Linear_init_inv in Hpin as (_ & _ & ->).
    destruct (Linear_init (n_heads * d_head) in_channels true _ _) as [po0|] eqn:Hpo;
      [|discriminate].
    cbn [rbind zero_module] in H.
    destruct (zero_linear (to_float po0 dt)) as [po|] eqn:Hz; [|discriminate].
    cbn [rbind] in H. injection H as <-.
    apply Linear_init_inv in Hpo as (_ & _ & ->).
    exists blocks, po. split; [exact Hm|]. split; [exact (@init_blocks_inv _ _ _ Hb)|].
    split; [exact Hz|]. repeat split; reflexivity.
Qed.
(** X1: right after construction (generic attention cells, and
    [n_heads * d_head = in_channels]), [SpatialTransformer.construct]
    returns its input: the zeroed output projection yields zeros, which
    the final [x + x_in] adds to the input.  Arithmetic on the values is
    taken exact as far as [a * 0 = 0] and [0 + a = a]. *)
Theorem SpatialTransformer_zero_init_identity
    in_channels n_heads d_head depth dr cd ck ul dt efa cs w self x context B H W :
  (forall a, fmul a f0 = f0) -> (forall a, fadd f0 a = a) ->
  SpatialTransformer_init env in_channels n_heads d_head depth dr cd ck ul dt efa false cs w
    = Ok self ->
  n_heads * d_head = in_channels ->
  wf x -> shape x = [B; in_channels; H; W] ->
  context_fits context B in_channels (default cd (inl in_channels)) ->
  paths_usable env efa context B (H * W) ->
  exists log out,
    run (SpatialTransformer_construct env self x context) = (log, Ok out) /\
    shape out = shape x /\ data out = data x /\ dtype out = promote dt (dtype x).
Proof.
  intros Hmul Hadd Hinit Hinner Hwf Hx Hfit Huse.
  apply SpatialTransformer_init_inv in Hinit
    as (blocks & po & Hm & Hblocks & Hz & Gn & Gpi & Gb & Gpo & Gul & Grs & Gtr).
  rewrite Hinner in *.
  assert (Hadd0 : fadd f0 f0 = f0) by apply Hadd.
  unfold run, SpatialTransformer_construct, SpatialTransformer_body, mbind, lift,
    call_attr, attr_bool.
  rewrite Hx, Gn, Gpi, Gb, Gpo, Gul, Grs, Gtr.
  cbn [unpack4 rbind as_bool as_list call_layer call_reshape call_transpose].
  cbn [apply_layer].
  destruct (@GroupNorm_apply_shape 32
              (mkNorm in_channels 6 (nw_gamma (sw_norm w)) (nw_beta (sw_norm w)) float32)
              x B H W Hx) as (n & -> & Hn).
  rewrite Hx in Hn. cbn [rbind].
  destruct ul; cbn [negb apply_layer rbind].
  - (* use_linear *)
    rewrite (@reshape_ok _ n [B; in_channels; H * W]) by (rewrite Hn; cbn; lia).
    cbn [rbind].
    destruct (@transpose_021_spec _ (mkTensor (dtype n) [B; in_channels; H * W] (data n))
                B in_channels (H * W) eq_refl) as (t & -> & Ht & _).
    cbn [rbind].
    destruct (@Dense_apply_spec3 _
                (mkLinear in_channels in_channels (lw_weight (sw_proj_in w))
                   (Some (lw_bias (sw_proj_in w))) dt) t B (H * W) Ht)
      as (p & -> & Hp & _).
    cbn [l_out] in Hp. cbn [rbind].
    destruct (@run_blocks_returns_from in_channels n_heads d_head dr cd true ck dt efa cs
                (sw_blocks w) blocks context B (H * W) Hblocks Hfit Huse p [] Hp)
      as (l' & y & -> & Hy).
    destruct (@Dense_zeroed _ po y B (H * W) Hmul Hadd0 Hz Hy)
      as (z & -> & Hsz & Hdz & Hwz & Hzz).
    cbn [l_out l_dtype] in Hsz, Hdz. cbn [rbind].
    rewrite (@reshape_ok _ z [B; H; W; in_channels]) by (rewrite Hsz; cbn; lia).
    cbn [rbind].
    destruct (@transpose_0312_shape (mkTensor (dtype z) [B; H; W; in_channels] (data z))
                B H W in_channels eq_refl) as (t2 & -> & Ht2 & Hdt2 & Hwt2 & Hzt2).
    cbn [rbind dtype] in *.
    destruct (@tadd_zero_l t2 x Hadd (Hzt2 Hzz) Hwt2 Hwf ltac:(congruence))
      as (out & -> & Hso & Hdo & Hto).
    exists ([] ++ l'), out. split; [reflexivity|].
    split; [congruence|]. split; [exact Hdo|]. now rewrite Hto, Hdt2, Hdz.
  - (* convolutions *)
    destruct (@Conv1x1_apply_shape
                (mkLinear in_channels in_channels (lw_weight (sw_proj_in w))
                   (Some (lw_bias (sw_proj_in w))) dt) n B H W Hn)
      as (p & -> & Hp & _).
    cbn [l_out] in Hp. cbn [rbind].
    rewrite (@reshape_ok _ p [B; in_channels; H * W]) by (rewrite Hp; cbn; lia).
    cbn [rbind].
    destruct (@transpose_021_spec _ (mkTensor (dtype p) [B; in_channels; H * W] (data p))
                B in_channels (H * W) eq_refl) as (t & -> & Ht & _).
    cbn [rbind].
    destruct (@run_blocks_returns_from in_channels n_heads d_head dr cd true ck dt efa cs
                (sw_blocks w) blocks context B (H * W) Hblocks Hfit Huse t [] Ht)
      as (l' & y & -> & Hy).
    rewrite (@reshape_ok _ y [B; H; W; in_channels]) by (rewrite Hy; cbn; lia).
    cbn [rbind].
    destruct (@transpose_0312_shape (mkTensor (dtype y) [B; H; W; in_channels] (data y))
                B H W in_channels eq_refl) as (t2 & -> & Ht2 & _).
    cbn [rbind].
    destruct (@Conv1x1_zeroed _ po t2 B H W Hmul Hadd0 Hz Ht2)
      as (z & -> & Hsz & Hdz & Hwz & Hzz).
    cbn [l_out l_dtype] in Hsz, Hdz.
    destruct (@tadd_zero_l z x Hadd Hzz Hwz Hwf ltac:(congruence))
      as (out & -> & Hso & Hdo & Hto).
    exists ([] ++ l'), out. split; [reflexivity|].
    split; [congruence|]. split; [exact Hdo|]. now rewrite Hto, Hdz.
Qed.





End SpatialProps.

(* ================================================================== *)
(** * [zero_module], shapes in [SpatialTransformer], frame sharing *)

Section MoreSpatialProps.
Context {S : Scalar}.
Variable env : Backend.

(** X11: [zero_module] on a [Dense] without bias raises ([None] has no
    [shape]); on one with bias it returns a layer whose output is zero
    everywhere, of the shape and element type of the layer's output. *)
Theorem zero_module_dense (l : Linear) (x : Tensor) B N :
  (forall a, fmul a f0 = f0) -> fadd f0 f0 = f0 ->
  shape x = [B; N; l_in l] ->
  match l_bias l with
  | None => zero_module (LDense l) = Err (AttributeError "NoneType" "shape")
  | Some _ =>
      exists m y, zero_module (LDense l) = Ok m /\ apply_layer m x = Ok y /\
                  shape y = [B; N; l_out l] /\ dtype y = l_dtype l /\ all_zero y
  end.
Proof.
  intros Hmul Hadd Hx. destruct (l_bias l) as [b|] eqn:Hb.
  - assert (Hz : exists l', zero_linear l = Ok l').
    { unfold zero_linear. rewrite Hb. eauto. }
    destruct Hz as [l' Hz].
    destruct (@Dense_zeroed _ l l' x B N Hmul Hadd Hz Hx) as (y & Hy & Hs & Hd & _ & Ha).
    exists (LDense l'), y. cbn [zero_module]. rewrite Hz. cbn [rbind apply_layer]. auto.
  - cbn [zero_module]. unfold zero_linear. rewrite Hb. reflexivity.
Qed.

(** X14: a [SpatialTransformer] (with convolutions) whose
    [n_heads * d_head] differs from [in_channels] raises on every
    non-empty input: the projected tensor does not fit the shape
    (b, c, h*w) that [construct] reshapes it to. *)
Theorem SpatialTransformer_inner_dim_mismatch
    in_channels n_heads d_head depth dr cd ck dt efa cfa cs w self x context B H W :
  SpatialTransformer_init env in_channels n_heads d_head depth dr cd ck false dt efa cfa cs w
    = Ok self ->
  n_heads * d_head <> in_channels ->
  shape x = [B; in_channels; H; W] -> B * H * W <> 0 ->
  run (SpatialTransformer_construct env self x context) = ([], Err (ValueError "reshape")).
Proof.
  intros Hinit Hne Hx Hnz.
  apply SpatialTransformer_init_inv in Hinit
    as (blocks & po & Hm & Hblocks & Hz & Gn & Gpi & Gb & Gpo & Gul & Grs & Gtr).
  unfold run, SpatialTransformer_construct, SpatialTransformer_body, mbind, lift,
    call_attr, attr_bool.
  rewrite Hx, Gn, Gpi, Gul, Grs.
  cbn [unpack4 rbind as_bool as_list call_layer call_reshape call_transpose negb].
  cbn [apply_layer].
  destruct (@GroupNorm_apply_shape _ 32
              (mkNorm in_channels 6 (nw_gamma (sw_norm w)) (nw_beta (sw_norm w)) float32)
              x B H W Hx) as (n & -> & Hn).
  rewrite Hx in Hn. cbn [rbind].
  destruct (@Conv1x1_apply_shape _
              (mkLinear in_channels (n_heads * d_head) (lw_weight (sw_proj_in w))
                 (Some (lw_bias (sw_proj_in w))) dt) n B H W Hn)
    as (p & -> & Hp & _).
  cbn [l_out] in Hp. cbn [rbind]. unfold reshape. rewrite Hp.
  destruct (Nat.eqb_spec (numel [B; in_channels; H * W]) (numel [B; n_heads * d_head; H; W]))
    as [E|]; [|reflexivity].
  exfalso. cbn [numel fold_right] in E. apply Hne.
  assert (HH : in_channels * (B * H * W) = n_heads * d_head * (B * H * W)) by nia.
  now apply Nat.mul_cancel_r in HH.
Qed.
Lemma forallb_repeat_0 (L : nat) : 0 < L -> forallb (fun i => i <? L) (repeat 0 L) = true.
Proof.
  intros HL. apply forallb_forall. intros i Hi. apply repeat_spec in Hi. subst.
  now apply Nat.ltb_lt.
Qed.

Lemma share_one (self : Object) (t : Tensor) cs L N D :
  getattr self "reshape" = Ok (VOp OpReshape) ->
  0 < L ->
  shape t = [cs * L; N; D] ->
  exists t',
    (t1 <- CFA_rearange_frame self t L ;;
     t2 <- index_axis1 t1 (repeat 0 L) ;;
     CFA_rearange_frame_back self t2) = Ok t' /\
    shape t' = [cs * L; N; D] /\ dtype t' = dtype t /\
    forall c i n d, c < cs -> i < L -> n < N -> d < D ->
      tget t' [c * L + i; n; d] = tget t [c * L; n; d].
Proof.
  intros Hrs HL Hs.
  unfold CFA_rearange_frame, CFA_rearange_frame_back, index_axis1.
  rewrite Hs. cbn [unpack3 rbind]. rewrite (@floordiv_mul_r cs L HL). cbn [rbind].
  rewrite Hrs. cbn [rbind call_reshape].
  rewrite reshape_ok by (rewrite Hs; cbn; lia). cbn [rbind shape unpack4].
  rewrite (forallb_repeat_0 HL). cbn [rbind shape unpack4 tabulate]. rewrite repeat_length.
  rewrite ?Hrs. cbn [rbind call_reshape].
  rewrite reshape_ok by (cbn; lia).
  eexists. split; [reflexivity|]. split; [reflexivity|]. split; [reflexivity|].
  intros c i n d Hc Hi Hn Hd.
  unfold tget at 1. cbn [shape data ravel numel fold_right].
  replace ((c * L + i) * (N * (D * 1)) + (n * (D * 1) + (d * 1 + 0)))
    with (ravel [cs; L; N; D] [c; i; n; d]) by (cbn; lia).
  unfold tabulate. cbn [data].
  rewrite nth_map_seq by (apply (@ravel_lt [cs; L; N; D] [c; i; n; d]); repeat constructor; assumption).
  rewrite unravel_ravel by (repeat constructor; assumption).
  cbn [nth]. rewrite nth_repeat.
  unfold tget. cbn [shape data]. rewrite Hs. f_equal. cbn. lia.
Qed.

(** X13: the frame-sharing block of [CrossFrameAttention.construct], for a
    cell whose [reshape] attribute is [ops.Reshape()]: on keys and values
    of shape (chunks * L, N, D) it returns tensors of the same shape in
    which frame i of every chunk holds the entries of frame 0 of that
    chunk. *)
Theorem CFA_share_frames_entries (self : Object) (k v : Tensor) cs L N D :
  getattr self "reshape" = Ok (VOp OpReshape) ->
  getattr self "unet_chunk_size" = Ok (VInt cs) ->
  0 < L -> 0 < cs ->
  shape k = [cs * L; N; D] -> shape v = [cs * L; N; D] ->
  exists k' v',
    CFA_share_frames self k v = Ok (k', v') /\
    shape k' = shape k /\ shape v' = shape v /\
    forall c i n d, c < cs -> i < L -> n < N -> d < D ->
      tget k' [c * L + i; n; d] = tget k [c * L; n; d] /\
      tget v' [c * L + i; n; d] = tget v [c * L; n; d].
Proof.
  intros Hrs Hcs HL Hc Hk Hv.
  destruct (@share_one self k cs L N D Hrs HL Hk) as (k' & Ek & Hsk & _ & Hgk).
  destruct (@share_one self v cs L N D Hrs HL Hv) as (v' & Ev & Hsv & _ & Hgv).
  exists k', v'. split.
  - unfold CFA_share_frames, shape_at, attr_int. rewrite Hk, Hcs.
    cbn [nth_error rbind as_int]. rewrite (@floordiv_mul_l cs L Hc).
    cbn [rbind].
    revert Ek Ev.
    destruct (CFA_rearange_frame self k L) as [k1|]; cbn [rbind]; [|discriminate].
    destruct (index_axis1 k1 (repeat 0 L)) as [k2|]; cbn [rbind]; [|discriminate].
    intros ->. cbn [rbind].
    destruct (CFA_rearange_frame self v L) as [v1|]; cbn [rbind]; [|discriminate].
    destruct (index_axis1 v1 (repeat 0 L)) as [v2|]; cbn [rbind]; [|discriminate].
    intros ->. reflexivity.
  - split; [congruence|]. split; [congruence|]. intros c i n d H1 H2 H3 H4. split; auto.
Qed.
(** X4: a [FeedForward] can be built in its gated variant only: with
    [glu = False] the constructor raises the AttributeError for
    [nn.Sequential].  A [FeedForward] that was built maps (B, N, dim) to
    (B, N, dim_out), with dim_out defaulting to dim, in the element type
    given at construction. *)
Theorem FeedForward_keeps_shape dim dim_out mult glu dr dt w_in w_out ff x B N :
  FeedForward_init dim dim_out mult glu dr dt w_in w_out = Ok ff ->
  shape x = [B; N; dim] ->
  glu = true /\
  FeedForward_init dim dim_out mult false dr dt w_in w_out
    = Err (AttributeError "mindspore.nn" "Sequential") /\
  exists y, FeedForward_construct ff x = Ok y /\
            shape y = [B; N; default dim_out (inl dim)] /\ dtype y = dt.
Proof.
  intros Hinit Hx.
  destruct glu; [|discriminate Hinit].
  split; [reflexivity|]. split; [reflexivity|].
  revert Hinit. unfold FeedForward_init, GEGLU_init. cbn [negb]. intros Hinit.
  destruct (Linear_init dim (dim * mult * 2) true _ _) as [proj|] eqn:Hp; [|discriminate].
  destruct (Linear_init (dim * mult) _ true _ _) as [lo|] eqn:Ho; [|discriminate].
  cbn [rbind] in Hinit. injection Hinit as <-.
  apply Linear_init_inv in Hp as (_ & _ & ->). apply Linear_init_inv in Ho as (_ & _ & ->).
  unfold FeedForward_construct, call_attr. cbn [getattr setattr new_object attrs lookup
    String.eqb Ascii.eqb Bool.eqb rbind call_layer apply_layer].
  unfold to_float. cbn [l_in l_out l_weight l_bias].
  destruct (@GEGLU_construct_shape _
              (mkLinear dim (dim * mult * 2) (lw_weight w_in) (Some (lw_bias w_in)) dt)
              x B N (dim * mult) Hx eq_refl) as (y & -> & Hsy).
  cbn [rbind].
  destruct (@Dense_apply_spec3 _
              (mkLinear (dim * mult) (default dim_out (inl dim)) (lw_weight w_out)
                 (Some (lw_bias w_out)) dt)
              y B N Hsy) as (z & -> & Hsz & Hdz & _).
  cbn [rbind]. eauto.
Qed.

(** X2: a [BasicTransformerBlock] with attention cells of class
    [CrossAttention] and the gated feed-forward (the variant that can be
    built), called on [x] of shape (B, N, dim) with a context that fits,
    returns a tensor of the shape of [x]: both attentions and the
    feed-forward keep the shape and each result is added to its input.
    Where the accelerated path may be taken, its kernel is assumed to keep
    the shape of its query and the tensors to be non-empty
    ([paths_usable]). *)
Theorem BasicTransformerBlock_keeps_shape dim nh dhd dr cd ck dt efa cs w self
    x context B N :
  BasicTransformerBlock_init env dim nh dhd dr cd true ck dt efa false cs w = Ok self ->
  shape x = [B; N; dim] ->
  context_fits context B dim (default cd (inl dim)) ->
  paths_usable env efa context B N ->
  exists log out,
    run (BasicTransformerBlock_construct env self x context) = (log, Ok out) /\
    shape out = shape x.
Proof.
  intros Hinit Hx Hfit Huse.
  destruct (@BasicTransformerBlock_returns_from _ env dim nh dhd dr cd true ck dt efa cs w self
              x context B N [] Hinit Hx Hfit Huse) as (l' & out & Hrun & Hs).
  exists l', out. split; [exact Hrun | congruence].
Qed.

End MoreSpatialProps.

(* ================================================================== *)
(** * Runs on concrete inputs *)

Module Runs.
#[local] Existing Instance ZScalar.
Import Sample.

Example sample_objects_built :
  Attention_init 2 = Ok attention2 /\
  CrossAttention_init cpu "CrossAttention" 4 None 2 2 1%Z float16 false (attn_weights 4 4)
    = Ok ca /\
  CrossAttention_init ascend "CrossAttention" 4 None 2 2 1%Z float16 true (attn_weights 4 4)
    = Ok ca_flash /\
  CrossFrameAttention_init cpu 2 4 None 2 2 1%Z float32 false (attn_weights 4 4) = Ok cfa /\
  CrossFrameAttention_init ascend 2 4 None 2 2 1%Z float32 true (attn_weights 4 4)
    = Ok cfa_flash.
Proof. repeat split. Qed.

(** C5, counterexample: one frame in a batch, chunk size 2, no context.
    [video_length] is [1 // 2 = 0] and [rearange_frame] divides by it, so
    the call raises ZeroDivisionError before [self.reshape] is evaluated:
    not every call ends in the AttributeError. *)
Lemma C5_counterexample_single_frame :
  CrossFrameAttention_init cpu 2 4 None 2 2 1%Z float32 false (attn_weights 4 4) = Ok cfa /\
  run (CrossFrameAttention_construct cpu cfa (tensor float32 [1; 3; 4]) None None)
    = ([], Err ZeroDivisionError) /\
  snd (run (CrossFrameAttention_construct cpu cfa (tensor float32 [1; 3; 4]) None None))
    <> Err (AttributeError "CrossFrameAttention" "reshape").
Proof. repeat split. discriminate. Qed.


(** C2, at a failing input: q, k, v of shape (2, 3, 2) in float16 and in
    float32, and a bool mask that masks key 2 for every query.  The call
    raises the AttributeError for [self.reshape] with no softmax computed,
    so no weight is produced at all; and with [reshape] and [heads]
    supplied the call returns exactly what the call without mask returns:
    the masked key keeps its weight. *)
Theorem C2_masked_call_at_input :
  masked_call float16
    = ([EvAttention (tensor float16 [2; 3; 2]) (tensor float16 [2; 3; 2])
          (tensor float16 [2; 3; 2]) (Some (key_mask 2 3))],
       Err (AttributeError "Attention" "reshape")) /\
  masked_call float32
    = ([EvAttention (tensor float32 [2; 3; 2]) (tensor float32 [2; 3; 2])
          (tensor float32 [2; 3; 2]) (Some (key_mask 2 3))],
       Err (AttributeError "Attention" "reshape")) /\
  is_ok (supplied_call float16 (Some (key_mask 2 3))) = true /\
  is_ok (supplied_call float32 (Some (key_mask 2 3))) = true /\
  supplied_call float16 (Some (key_mask 2 3)) = supplied_call float16 None /\
  supplied_call float32 (Some (key_mask 2 3)) = supplied_call float32 None.
Proof. repeat split. Qed.

(** C3, at a failing input: the generic path of [CrossAttention] with a
    mask.  The call raises inside [Attention.construct] instead of
    returning a tensor; without the mask the same call returns a tensor of
    the shape and element type of [x]. *)
Theorem C3_generic_path_with_mask_at_input :
  let x := tensor float32 [2; 3; 4] in
  snd (run (CrossAttention_construct cpu ca x None (Some (key_mask 2 3))))
    = Err (AttributeError "Attention" "reshape") /\
  exists out, snd (run (CrossAttention_construct cpu ca x None None)) = Ok out /\
              shape out = shape x /\ dtype out = dtype x.
Proof. split; [reflexivity|]. eexists. repeat split. Qed.

(** C4, at a failing input: a batch of 2 * 2 frames, chunk size 2.  With
    and without a context the call raises the AttributeError for
    [self.reshape]; no keys or values reach an attention kernel. *)
Theorem C4_frame_sharing_at_input :
  let x := tensor float32 [4; 3; 4] in
  run (CrossFrameAttention_construct cpu cfa x None None)
    = ([], Err (AttributeError "CrossFrameAttention" "reshape")) /\
  run (CrossFrameAttention_construct cpu cfa x (Some x) None)
    = ([], Err (AttributeError "CrossFrameAttention" "reshape")).
Proof. split; reflexivity. Qed.

(** C7, at a failing input: sequence length 3, fused kernel available and
    enabled.  [CrossFrameAttention] raises before its dispatch and enters
    neither path; [CrossAttention] on the same input takes the generic
    path, and takes the accelerated one when the length is 16. *)
Theorem C7_dispatch_at_input :
  let x := tensor float32 [4; 3; 4] in
  let x16 := tensor float32 [4; 16; 4] in
  run (CrossFrameAttention_construct ascend cfa_flash x None None)
    = ([], Err (AttributeError "CrossFrameAttention" "reshape")) /\
  map is_flash (fst (run (CrossAttention_construct ascend ca_flash x None None)))
    = [false; false] /\
  map is_attention (fst (run (CrossAttention_construct ascend ca_flash x None None)))
    = [true; false] /\
  map is_flash (fst (run (CrossAttention_construct ascend ca_flash x16 None None)))
    = [true].
Proof. repeat split. Qed.


(** Inputs at which the hypotheses of the general theorems hold. *)
Lemma C1_attention_unmasked_witness :
  Attention_init 2 = Ok attention2 /\
  exists kt qk out,
    transpose (tensor float32 [2; 4; 2]) [0; 2; 1] = Ok kt /\
    matmul (tensor float32 [2; 3; 2]) kt = Ok qk /\
    matmul (softmax (scale_by qk (fpow_neg_half 2))) (tensor float32 [2; 4; 2]) = Ok out /\
    snd (run (Attention_construct attention2 (tensor float32 [2; 3; 2])
                (tensor float32 [2; 4; 2]) (tensor float32 [2; 4; 2]) None)) = Ok out /\
    shape out = [2; 3; 2] /\
    forall b i d, b < 2 -> i < 3 -> d < 2 ->
      tget out [b; i; d]
      = spec_attention (tensor float32 [2; 3; 2]) (tensor float32 [2; 4; 2])
          (tensor float32 [2; 4; 2]) 2 4 b i d.
Proof.
  split; [reflexivity|].
  apply (@C1_attention_unmasked ZScalar attention2 (tensor float32 [2; 3; 2])
           (tensor float32 [2; 4; 2]) (tensor float32 [2; 4; 2]) 2 3 4 2); reflexivity.
Defined.

Lemma C9_head_round_trip_witness :
  wf (tensor float32 [2; 3; 4]) /\ 0 < 2 /\
  exists y, _rearange_in (tensor float32 [2; 3; 4]) 2 = Ok y /\
            shape y = [2 * 2; 3; 2] /\
            _rearange_out y 2 = Ok (tensor float32 [2; 3; 4]).
Proof.
  split; [reflexivity|]. split; [lia|].
  apply (@C9_head_round_trip ZScalar (tensor float32 [2; 3; 4]) 2 3 2 2);
    [reflexivity | reflexivity | lia].
Defined.

Lemma C10_masked_attention_raises_witness :
  Attention_init 2 = Ok attention2 /\
  run (Attention_construct attention2 (tensor float32 [2; 3; 2]) (tensor float32 [2; 3; 2])
         (tensor float32 [2; 3; 2]) (Some (key_mask 2 3)))
  = ([EvAttention (tensor float32 [2; 3; 2]) (tensor float32 [2; 3; 2])
        (tensor float32 [2; 3; 2]) (Some (key_mask 2 3))],
     Err (AttributeError "Attention" "reshape")).
Proof.
  split; [reflexivity|].
  destruct (@C10_masked_attention_raises ZScalar 2 attention2 (tensor float32 [2; 3; 2])
              (tensor float32 [2; 3; 2]) (tensor float32 [2; 3; 2]) (key_mask 2 3) eq_refl)
    as (_ & _ & _ & H & _).
  eapply H; reflexivity.
Defined.

Lemma C5_cross_frame_attention_raises_witness :
  CrossFrameAttention_init cpu 2 4 None 2 2 1%Z float32 false (attn_weights 4 4) = Ok cfa /\
  run (CrossFrameAttention_construct cpu cfa (tensor float32 [4; 3; 4]) None None)
  = ([], Err (AttributeError "CrossFrameAttention" "reshape")).
Proof.
  split; [reflexivity|].
  destruct (@C5_cross_frame_attention_raises ZScalar cpu 2 4 None 2 2 1%Z float32 false
              (attn_weights 4 4) cfa (tensor float32 [4; 3; 4]) None None
              eq_refl)
    as (_ & _ & H & _).
  apply (H 4 3); [reflexivity|]. split; [reflexivity | lia].
Defined.




(** Inputs at which the hypotheses of the further theorems hold. *)
Lemma SpatialTransformer_zero_init_identity_witness :
  SpatialTransformer_init cpu 32 2 16 1 1%Z None true false float32 false false 2
    (spatial_weights 32) = Ok st /\
  exists log out,
    run (SpatialTransformer_construct cpu st (tensor float32 [1; 32; 1; 2]) None)
      = (log, Ok out) /\
    shape out = shape (tensor float32 [1; 32; 1; 2]) /\
    data out = data (tensor float32 [1; 32; 1; 2]) /\
    dtype out = promote float32 (dtype (tensor float32 [1; 32; 1; 2])).
Proof.
  split; [reflexivity|].
  apply (@SpatialTransformer_zero_init_identity ZScalar cpu 32 2 16 1 1%Z None true false
           float32 false 2 (spatial_weights 32) st (tensor float32 [1; 32; 1; 2]) None 1 1 2).
  - intros a. apply Z.mul_0_r.
  - intros a. reflexivity.
  - reflexivity.
  - reflexivity.
  - reflexivity.
  - reflexivity.
  - reflexivity.
  - left. reflexivity.
Defined.

Lemma BasicTransformerBlock_keeps_shape_witness :
  BasicTransformerBlock_init cpu 4 2 2 1%Z None true true float32 false false 2
    (block_weights 4 4) = Ok block /\
  exists log out,
    run (BasicTransformerBlock_construct cpu block (tensor float32 [2; 3; 4]) None)
      = (log, Ok out) /\
    shape out = shape (tensor float32 [2; 3; 4]).
Proof.
  split; [reflexivity|].
  apply (@BasicTransformerBlock_keeps_shape ZScalar cpu 4 2 2 1%Z None true float32 false 2
           (block_weights 4 4) block (tensor float32 [2; 3; 4]) None 2 3).
  - reflexivity.
  - reflexivity.
  - reflexivity.
  - left. reflexivity.
Defined.

Lemma BasicTransformerBlock_cross_frame_raises_witness :
  BasicTransformerBlock_init cpu 4 2 2 1%Z None true true float32 false true 2
    (block_weights 4 4) = Ok block_cf /\
  run (BasicTransformerBlock_construct cpu block_cf (tensor float32 [2; 3; 4]) None)
    = ([], Err (AttributeError "CrossFrameAttention" "reshape")).
Proof.
  split; [reflexivity|].
  destruct (@BasicTransformerBlock_cross_frame_raises ZScalar cpu 4 2 2 1%Z None true true
              float32 false 2 (block_weights 4 4) block_cf (tensor float32 [2; 3; 4]) None
              eq_refl) as [_ H].
  apply (H 2 3); [reflexivity | lia].
Defined.

Lemma FeedForward_keeps_shape_witness :
  FeedForward_init 4 None 4 true 1%Z float32 (lin_weights 4 32) (lin_weights 16 4) = Ok ff /\
  FeedForward_init 4 None 4 false 1%Z float32 (lin_weights 4 32) (lin_weights 16 4)
    = Err (AttributeError "mindspore.nn" "Sequential") /\
  exists y, FeedForward_construct ff (tensor float32 [2; 3; 4]) = Ok y /\
            shape y = [2; 3; default None (inl 4)] /\ dtype y = float32.
Proof.
  split; [reflexivity|].
  destruct (@FeedForward_keeps_shape ZScalar 4 None 4 true 1%Z float32 (lin_weights 4 32)
              (lin_weights 16 4) ff (tensor float32 [2; 3; 4]) 2 3 eq_refl eq_refl)
    as (_ & H1 & H2).
  split; [exact H1 | exact H2].
Defined.

Lemma GEGLU_construct_entries_witness :
  exists p, Dense_apply geglu_proj
              (tensor float32 [2; 3; 4]) = Ok p /\
  exists y, GEGLU_construct geglu_proj
              (tensor float32 [2; 3; 4]) = Ok y /\
            shape y = [2; 3; 3] /\ dtype y = float32 /\
            forall b n j, b < 2 -> n < 3 -> j < 3 ->
              tget y [b; n; j] = fmul (tget p [b; n; j]) (fgelu (tget p [b; n; j + 3])).
Proof.
  eexists. split; [reflexivity|].
  eapply (@GEGLU_construct_entries ZScalar geglu_proj
            (tensor float32 [2; 3; 4]) _ 2 3 3); reflexivity.
Defined.

Lemma CrossAttention_dispatch_witness :
  CrossAttention_init ascend "CrossAttention" 4 None 2 2 1%Z float16 true (attn_weights 4 4)
    = Ok ca_flash /\
  exists log r,
    run (CrossAttention_construct ascend ca_flash (tensor float32 [4; 16; 4]) None None)
      = (log, r) /\
    existsb is_flash log = true /\
    existsb is_attention log = false /\
    (true = true \/ @None Tensor = None ->
       exists out, r = Ok out /\ shape out = shape (tensor float32 [4; 16; 4]) /\
                   dtype out = dtype (tensor float32 [4; 16; 4])) /\
    (true = false -> @None Tensor <> None -> r = Err (AttributeError "Attention" "reshape")).
Proof.
  split; [reflexivity|].
  apply (@CrossAttention_dispatch ZScalar ascend "CrossAttention" 4 None 2 2 1%Z float16 true
           (attn_weights 4 4) ca_flash (tensor float32 [4; 16; 4]) None None 4 16 16).
  - reflexivity.
  - reflexivity.
  - reflexivity.
  - intros _. split; [|split; discriminate].
    intros hd hn q k v m. exists q. split; reflexivity.
Defined.

Lemma CrossAttention_context_dim_mismatch_witness :
  exists self,
    CrossAttention_init cpu "CrossAttention" 4 (Some 6) 2 2 1%Z float32 false
      (attn_weights 6 4) = Ok self /\
    run (CrossAttention_construct cpu self (tensor float32 [2; 3; 4]) None None)
      = ([], Err (ValueError "Dense")).
Proof.
  eexists. split; [reflexivity|].
  eapply (@CrossAttention_context_dim_mismatch ZScalar cpu "CrossAttention" 4 6 2 2 1%Z float32
            false (attn_weights 6 4) _ (tensor float32 [2; 3; 4]) None 2 3);
    [reflexivity | discriminate | reflexivity].
Defined.

Lemma head_round_trip_back_witness :
  wf (tensor float32 [4; 3; 2]) /\
  exists x, _rearange_out (tensor float32 [4; 3; 2]) 2 = Ok x /\
            shape x = [2; 3; 2 * 2] /\
            _rearange_in x 2 = Ok (tensor float32 [4; 3; 2]).
Proof.
  split; [reflexivity|].
  apply (@head_round_trip_back ZScalar (tensor float32 [4; 3; 2]) 2 3 2 2);
    [reflexivity | reflexivity | lia].
Defined.

Lemma _rearange_in_entries_witness :
  exists y, _rearange_in (tensor float32 [2; 3; 4]) 2 = Ok y /\
    forall b h n d, b < 2 -> h < 2 -> n < 3 -> d < 2 ->
      tget y [b * 2 + h; n; d] = tget (tensor float32 [2; 3; 4]) [b; n; h * 2 + d].
Proof.
  eexists. split; [reflexivity|].
  eapply (@_rearange_in_entries ZScalar (tensor float32 [2; 3; 4]) _ 2 3 2 2);
    [reflexivity | lia | reflexivity].
Defined.

Lemma _rearange_in_succeeds_iff_witness :
  _rearange_in (tensor float32 [2; 3; 4]) 0 = Err ZeroDivisionError /\
  _rearange_in (tensor float32 [2; 3; 4]) 3 = Err (ValueError "reshape").
Proof.
  split.
  - apply (proj1 (@_rearange_in_succeeds_iff ZScalar (tensor float32 [2; 3; 4]) 2 3 4 0 eq_refl)).
    reflexivity.
  - apply (proj1 (proj2 (@_rearange_in_succeeds_iff ZScalar (tensor float32 [2; 3; 4]) 2 3 4 3
                           eq_refl))); discriminate.
Defined.

Lemma zero_module_dense_witness :
  exists m y, zero_module (LDense dense42) = Ok m /\
              apply_layer m (tensor float32 [2; 3; 4]) = Ok y /\
              shape y = [2; 3; 2] /\ dtype y = float32 /\ all_zero y.
Proof.
  apply (@zero_module_dense ZScalar dense42
           (tensor float32 [2; 3; 4]) 2 3).
  - intros a. apply Z.mul_0_r.
  - reflexivity.
  - reflexivity.
Defined.

Lemma uniq_spec_witness :
  NoDup (uniq Nat.eqb [3; 1; 3; 2; 1]) /\
  (forall x, In x (uniq Nat.eqb [3; 1; 3; 2; 1]) <-> In x [3; 1; 3; 2; 1]) /\
  (NoDup [3; 1; 3; 2; 1] -> uniq Nat.eqb [3; 1; 3; 2; 1] = [3; 1; 3; 2; 1]).
Proof. apply (@uniq_spec nat Nat.eqb Nat.eqb_eq). Defined.

Lemma CFA_share_frames_entries_witness :
  getattr cfa_reshape "reshape" = Ok (VOp OpReshape) /\
  exists k' v',
    CFA_share_frames cfa_reshape (tensor float32 [4; 3; 2]) (tensor float32 [4; 3; 2])
      = Ok (k', v') /\
    shape k' = shape (tensor float32 [4; 3; 2]) /\
    shape v' = shape (tensor float32 [4; 3; 2]) /\
    forall c i n d, c < 2 -> i < 2 -> n < 3 -> d < 2 ->
      tget k' [c * 2 + i; n; d] = tget (tensor float32 [4; 3; 2]) [c * 2; n; d] /\
      tget v' [c * 2 + i; n; d] = tget (tensor float32 [4; 3; 2]) [c * 2; n; d].
Proof.
  split; [reflexivity|].
  apply (@CFA_share_frames_entries ZScalar cfa_reshape (tensor float32 [4; 3; 2])
           (tensor float32 [4; 3; 2]) 2 2 3 2); try reflexivity; lia.
Defined.

Lemma SpatialTransformer_inner_dim_mismatch_witness :
  SpatialTransformer_init cpu 32 1 16 1 1%Z None true false float32 false false 2
    (spatial_weights 16) = Ok st_narrow /\
  run (SpatialTransformer_construct cpu st_narrow (tensor float32 [1; 32; 1; 2]) None)
    = ([], Err (ValueError "reshape")).
Proof.
  split; [reflexivity|].
  apply (@SpatialTransformer_inner_dim_mismatch ZScalar cpu 32 1 16 1 1%Z None true float32
           false false 2 (spatial_weights 16) st_narrow (tensor float32 [1; 32; 1; 2]) None
           1 1 2); [reflexivity | discriminate | reflexivity | discriminate].
Defined.

End Runs.
